(** * Vehicle document viewer: a shallow embedding of [flask_app.py]

    The development follows the source file top to bottom: Python strings,
    the filename cleaner, the in-memory cache with its 30 minute window,
    the paginated fetch from the NHTSA service, and the three JSON/PDF
    handlers.  Library code the program calls but does not contain
    (the date parser and the case mapping of pandas/Python, the network) is
    taken as a parameter of the definitions. *)

From Stdlib Require Import ZArith List Bool Ascii String Lia Permutation Sorted.
From Stdlib Require Import DecimalString.
From stdpp Require Import base option list gmap.

Local Open Scope Z_scope.

(** ** Python strings

    A Python [str] is a sequence of Unicode code points.  Comparison of
    two strings is lexicographic on the code points. *)

Module Py.

Definition char := N.
Definition str := list char.

(** A literal of the source, read character by character. *)
Fixpoint lit (s : string) : str :=
  match s with
  | EmptyString => []
  | String a rest => N_of_ascii a :: lit rest
  end.

Definition between (lo hi c : N) : bool := (N.leb lo c && N.leb c hi)%bool.

(** The classes [a-z], [A-Z] and [0-9] of a regular expression. *)
Definition is_lower_az (c : char) : bool := between 97 122 c.
Definition is_upper_az (c : char) : bool := between 65 90 c.
Definition is_digit09 (c : char) : bool := between 48 57 c.
Definition is_ascii_alnum (c : char) : bool :=
  (is_lower_az c || is_upper_az c || is_digit09 c)%bool.

(** The code points for which [str.isspace] holds, which are also the ones
    the class [\s] of a [str] pattern matches. *)
Definition is_space (c : char) : bool :=
  (between 9 13 c || between 28 32 c || N.eqb c 133 || N.eqb c 160
   || N.eqb c 5760 || between 8192 8202 c || N.eqb c 8232 || N.eqb c 8233
   || N.eqb c 8239 || N.eqb c 8287 || N.eqb c 12288)%bool.

Definition SPACE : char := 32%N.
Definition HYPHEN : char := 45%N.
Definition UNDERSCORE : char := 95%N.

(** [s.replace(a, b)] for one-character [a] and [b]. *)
Definition replace_char (a b : char) (s : str) : str :=
  map (fun c => if N.eqb c a then b else c) s.

(** [re.sub(cls, '', s)] where [cls] is a single character class: every
    character the class matches is deleted. *)
Definition re_sub_delete (cls : char -> bool) (s : str) : str :=
  List.filter (fun c => negb (cls c)) s.

(** [bool(s.strip())]: some character of [s] is not white space. *)
Definition strip_nonempty (s : str) : bool := existsb (fun c => negb (is_space c)) s.

(** [a < b] and [a == b] on strings. *)
Fixpoint str_ltb (a b : str) : bool :=
  match a, b with
  | [], [] => false
  | [], _ :: _ => true
  | _ :: _, [] => false
  | x :: a', y :: b' =>
      if N.ltb x y then true else if N.eqb x y then str_ltb a' b' else false
  end.

Fixpoint str_eqb (a b : str) : bool :=
  match a, b with
  | [], [] => true
  | x :: a', y :: b' => (N.eqb x y && str_eqb a' b')%bool
  | _, _ => false
  end.

Definition str_leb (a b : str) : bool := negb (str_ltb b a).

(** [str(n)] and the [{n}] of an f-string, for an integer. *)
Definition str_of_Z (n : Z) : str := lit (NilZero.string_of_int (Z.to_int n)).

End Py.

Import Py.

(** ** [clean_filename] *)

(** The class [[^a-zA-Z0-9\s-]] of the source: everything but ASCII
    letters, ASCII digits, white space and the hyphen. *)
Definition filename_junk (c : char) : bool :=
  negb (is_ascii_alnum c || is_space c || N.eqb c HYPHEN).

Definition clean_filename (text : str) : str :=
  let cleaned := re_sub_delete filename_junk text in
  let cleaned := replace_char SPACE UNDERSCORE cleaned in
  cleaned.

(** The cleaner as the specification words it: delete what is neither
    alphanumeric nor white space, then turn spaces into underscores. *)
Definition spec_clean_filename (text : str) : str :=
  replace_char SPACE UNDERSCORE
    (List.filter (fun c => (is_ascii_alnum c || is_space c)%bool) text).

Definition alnum_or_underscore (c : char) : bool :=
  (is_ascii_alnum c || N.eqb c UNDERSCORE)%bool.

(** What a character of a cleaned name can be. *)
Definition filename_char (c : char) : bool :=
  (is_ascii_alnum c || N.eqb c HYPHEN || N.eqb c UNDERSCORE
   || (is_space c && negb (N.eqb c SPACE)))%bool.

(** ** Tables

    A [pandas.DataFrame] is kept as its column labels and its rows, a row
    being its projection on the four columns the program reads.  A cell is
    the text of a field or [NaN] (written [None]) for a missing field,
    which is what [read_csv] gives for a column of text.  A column whose
    fields all read as numbers is not of text for pandas: [column_is_text]
    below tells the two apart for [get_pdf], whose selections depend on
    it, and [plain_text] says of a column that it holds no such field. *)

Definition cell := option str.

Record Row := mkRow {
  manufacturername : cell;
  name : cell;
  letterdate : cell;
  url : cell }.

Record DataFrame := mkFrame {
  columns : list string;
  rows : list Row }.

Definition has_column (c : string) (df : DataFrame) : bool :=
  existsb (String.eqb c) (columns df).

(** [pd.DataFrame()], [df.empty] and [len(df)]. *)
Definition empty_frame : DataFrame := mkFrame [] [].

Definition df_empty (df : DataFrame) : bool :=
  match columns df, rows df with
  | [], _ | _, [] => true
  | _, _ => false
  end.

Definition df_len (df : DataFrame) : Z := Z.of_nat (length (rows df)).

(** A row seen through a set of labels: a column that is not there reads
    [NaN]. *)
Definition keep (cols : list string) (c : string) (v : cell) : cell :=
  if existsb (String.eqb c) cols then v else None.

Definition reindex (cols : list string) (r : Row) : Row :=
  mkRow (keep cols "manufacturername" (manufacturername r))
        (keep cols "name" (name r))
        (keep cols "letterdate" (letterdate r))
        (keep cols "url" (url r)).

(** [pd.concat([a, b], ignore_index=True)]: the labels of [a] followed by
    the new ones of [b], and the rows of both. *)
Definition concat (a b : DataFrame) : DataFrame :=
  let cols :=
    columns a ++ List.filter (fun c => negb (existsb (String.eqb c) (columns a))) (columns b) in
  mkFrame cols (map (reindex (columns a)) (rows a) ++ map (reindex (columns b)) (rows b)).

Definition cell_eqb (a b : cell) : bool :=
  match a, b with
  | Some x, Some y => str_eqb x y
  | None, None => true
  | _, _ => false
  end.

(** [series == s]: a missing value is equal to nothing. *)
Definition cell_is (s : str) (c : cell) : bool :=
  match c with Some x => str_eqb x s | None => false end.

(** The first occurrence of every value, in order of appearance
    ([Series.unique], [drop_duplicates]). *)
Fixpoint unique_by {A} (same : A -> A -> bool) (l : list A) : list A :=
  match l with
  | [] => []
  | x :: l' => x :: List.filter (fun y => negb (same x y)) (unique_by same l')
  end.

(** A stable sort, smallest first for the order [le].  It stands for
    [sort_values] and for [sorted]; with a single key [sort_values] does
    not promise the relative order of equal keys, and no property below
    depends on it. *)
Fixpoint insert_by {A} (le : A -> A -> bool) (x : A) (l : list A) : list A :=
  match l with
  | [] => [x]
  | y :: l' => if le x y then x :: l else y :: insert_by le x l'
  end.

Definition sort_by {A} (le : A -> A -> bool) (l : list A) : list A :=
  foldr (insert_by le) [] l.

(** ** The cache

    Instants and durations are counted in microseconds, the resolution of
    [datetime]. *)

Definition CACHE_DURATION : Z := 30 * 60 * 1000000.

Abbreviation Cache := (gmap Z (Z * DataFrame)).

Definition get_cached_data (now : Z) (year : Z) (memory_cache : Cache) : option DataFrame * Cache :=
  match memory_cache !! year with
  | Some (cached_time, data) =>
      if now - cached_time <? CACHE_DURATION then (Some data, memory_cache)
      else (None, delete year memory_cache)
  | None => (None, memory_cache)
  end.

Definition cache_data (now : Z) (year : Z) (data : DataFrame) (memory_cache : Cache) : Cache :=
  <[year := (now, data)]> memory_cache.

(** ** The outside world

    One call of a handler reads the clock at most twice and talks to the
    NHTSA service and to the host of the PDF. *)

(** What [requests.get] followed by [pd.read_csv] gives for one page:
    an exception from the request, or a status with, for status 200, the
    parsed page ([None] when the parser raises). *)
Inductive Reply :=
| ConnectionError
| Http (status_code : Z) (parsed : option DataFrame).

Inductive PdfReply :=
| PdfError (message : str)
| PdfHttp (status_code : Z) (content : list N).

Record World := mkWorld {
  now_lookup : Z;
  now_store : Z;
  nhtsa : Z -> Z -> Reply;
  pdf_host : cell -> PdfReply }.

(** ** [fetch_nhtsa_data] *)

Definition max_pages : Z := 10.

(** The [while] loop, one unit of fuel per evaluation of its test.  The
    result is the table built so far and the pages that were requested,
    oldest first. *)
Fixpoint fetch_pages (fuel : nat) (get : Z -> Reply) (page : Z)
    (all_data : DataFrame) (asked : list Z) : option (DataFrame * list Z) :=
  match fuel with
  | O => None
  | S fuel' =>
      if page <=? max_pages then
        match get page with
        | ConnectionError => Some (all_data, asked ++ [page])
        | Http status_code parsed =>
            if negb (status_code =? 200) then Some (all_data, asked ++ [page])
            else match parsed with
                 | None => Some (all_data, asked ++ [page])
                 | Some df =>
                     if (df_empty df || (df_len df <? 10))%bool
                     then Some (all_data, asked ++ [page])
                     else fetch_pages fuel' get (page + 1) (concat all_data df) (asked ++ [page])
                 end
        end
      else Some (all_data, asked)
  end.

(** Ten iterations and the last test. *)
Definition loop_fuel : nat := 11.

Definition fetch_loop (get : Z -> Reply) : DataFrame * list Z :=
  match fetch_pages loop_fuel get 1 empty_frame [] with
  | Some r => r
  | None => (empty_frame, [])
  end.

Record Fetched := mkFetched {
  table : DataFrame;
  requested : list Z;
  cache_after : Cache }.

Definition fetch_nhtsa_data (w : World) (year : Z) (memory_cache : Cache) : Fetched :=
  match get_cached_data (now_lookup w) year memory_cache with
  | (Some cached_data, mc) => mkFetched cached_data [] mc
  | (None, mc) =>
      let '(all_data, asked) := fetch_loop (nhtsa w year) in
      let mc' := if negb (df_empty all_data) then cache_data (now_store w) year all_data mc else mc in
      mkFetched all_data asked mc'
  end.

(** ** Responses *)

#[local] Unset Elimination Schemes.
Inductive Json :=
| JStr (s : str)
| JNaN
| JList (items : list Json)
| JObj (fields : list (string * Json)).
#[local] Set Elimination Schemes.

Definition json_cell (c : cell) : Json :=
  match c with Some s => JStr s | None => JNaN end.

Inductive Response :=
| JsonResponse (status : Z) (body : Json)
| FileResponse (status : Z) (mimetype : string) (as_attachment : bool)
    (download_name : str) (content : list N).

(** [jsonify] answers with status 200. *)
Definition jsonify (body : Json) : Response := JsonResponse 200 body.

(** What [send_file] does with the bytes it is given: it raises (a header
    value it refuses), or it answers with a status and a body (200 and the
    whole, or 206 and a part of it for a request with a range). *)
Inductive Sent :=
| SendError (message : str)
| SendOk (status : Z) (body : list N).

(** An exception nothing in the handler catches: Flask turns it into a
    response with status 500 that is not built by the handler. *)
Inductive Exn :=
| KeyError (label : string)
| TypeError
| AttributeError.

Inductive Outcome :=
| Returned (r : Response)
| Raised (e : Exn).

Inductive Method := GET | POST.

(** ** The handlers

    [lower] is [str.lower], [to_datetime] is [pd.to_datetime] with
    [errors='coerce'] on one value ([None] for [NaT]), an instant being an
    integer, and [strftime_ymd] is [strftime('%Y-%m-%d')].  [is_number]
    tells the fields [read_csv] takes for numbers or truth values: a column
    is read as text when one of its fields is not of this kind.
    [max_skips_missing] tells whether the [max] of a group of text values
    skips the missing ones (it raises on a group that has both when it does
    not; the versions of pandas differ).  [send_file_lib] is Flask's
    [send_file] for the request at hand, given the method, the bytes, the
    attachment flag and the download name. *)

Record Library := mkLibrary {
  lower : str -> str;
  to_datetime : str -> option Z;
  strftime_ymd : Z -> str;
  is_number : str -> bool;
  max_skips_missing : bool;
  send_file_lib : Method -> list N -> bool -> str -> Sent }.

(** The column is of text: [read_csv] gave it the dtype [object]. *)
Definition column_is_text (L : Library) (cells : list (option str)) : bool :=
  existsb (fun c => match c with Some s => negb (is_number L s) | None => false end) cells.

Definition parse_cell (L : Library) (c : cell) : option Z :=
  match c with Some s => to_datetime L s | None => None end.

(** [format(c)] inside an f-string. *)
Definition fmt_cell (c : cell) : str :=
  match c with Some s => s | None => lit "nan" end.

Definition texts (l : list cell) : list str := omap id l.

(** Descending with [na_position='last']. *)
Definition date_desc_le (a b : option Z) : bool :=
  match a, b with
  | Some x, Some y => y <=? x
  | Some _, None => true
  | None, Some _ => false
  | None, None => true
  end.

(** Ascending with [na_position='last']. *)
Definition text_asc_le (a b : cell) : bool :=
  match a, b with
  | Some x, Some y => str_leb x y
  | Some _, None => true
  | None, Some _ => false
  | None, None => true
  end.

Definition date_same (a b : option Z) : bool :=
  match a, b with
  | Some x, Some y => x =? y
  | None, None => true
  | _, _ => false
  end.

(** The greatest string of a list, [None] for the empty list. *)
Definition str_max (l : list str) : cell :=
  foldr (fun s acc =>
           match acc with
           | None => Some s
           | Some m => if str_ltb m s then Some s else Some m
           end) None l.

(** [data.groupby('manufacturername')['letterdate'].max().reset_index()]:
    one line per manufacturer that is not missing, in ascending order of
    the names, with the greatest of its dates that are not missing,
    compared as the strings they are. *)
Definition group_max_letterdate (data : DataFrame) : list (str * cell) :=
  let keys := sort_by str_leb (unique_by str_eqb (texts (map manufacturername (rows data)))) in
  map (fun k =>
         (k, str_max (texts (map letterdate
                (List.filter (fun r => cell_is k (manufacturername r)) (rows data))))))
      keys.

(** [sorted(l)] on a list whose members are distinct: comparing a string
    with [NaN] raises. *)
Definition py_sorted (l : list cell) : option (list cell) :=
  if forallb (fun c => match c with Some _ => true | None => false end) l
  then Some (map Some (sort_by str_leb (texts l)))
  else match l with
       | [None] => Some [None]
       | _ => None
       end.

(** The truth value of [m and str(m).strip()]: [NaN] is true and prints
    as a word. *)
Definition name_kept (m : cell) : bool :=
  match m with
  | Some s => (negb (str_eqb s []) && strip_nonempty s)%bool
  | None => true
  end.

(** Some manufacturer has a letter with a date and a letter without. *)
Definition mixes_missing (data : DataFrame) : bool :=
  existsb (fun k =>
             let dates := map letterdate
                            (List.filter (fun r => cell_is k (manufacturername r)) (rows data)) in
             (existsb (fun d => match d with None => true | Some _ => false end) dates
              && existsb (fun d => match d with Some _ => true | None => false end) dates)%bool)
          (unique_by str_eqb (texts (map manufacturername (rows data)))).

Section Handlers.

Context (L : Library).

Definition get_manufacturers (w : World) (year : Z) (sort : option str) (mc : Cache)
  : Outcome * Cache :=
  let sort_by_arg := default (lit "date") sort in
  let f := fetch_nhtsa_data w year mc in
  let data := table f in
  let out :=
    if df_empty data then
      Returned (jsonify (JObj [("manufacturers"%string, JList []);
                               ("error"%string, JStr (lit "No data found for year " ++ str_of_Z year))]))
    else if negb (has_column "manufacturername" data) then
      Returned (jsonify (JObj [("manufacturers"%string, JList []);
                               ("error"%string, JStr (lit "Invalid data format received from API"))]))
    else if (str_eqb sort_by_arg (lit "date") && has_column "letterdate" data)%bool then
      if (negb (max_skips_missing L) && mixes_missing data)%bool then Raised TypeError else
      let manufacturer_dates :=
        map (fun kd => (fst kd, parse_cell L (snd kd))) (group_max_letterdate data) in
      let manufacturer_dates :=
        sort_by (fun a b => date_desc_le (snd a) (snd b)) manufacturer_dates in
      let manufacturer_list :=
        map (fun kd =>
               JObj [("name"%string, JStr (fst kd));
                     ("latest_date"%string,
                      JStr (match snd kd with
                            | Some t => strftime_ymd L t
                            | None => lit "No date"
                            end))])
            manufacturer_dates in
      Returned (jsonify (JObj [("manufacturers"%string, JList manufacturer_list);
                               ("sorted_by"%string, JStr (lit "date"))]))
    else
      match py_sorted (List.filter name_kept (unique_by cell_eqb (map manufacturername (rows data)))) with
      | None => Raised TypeError
      | Some manufacturers =>
          Returned (jsonify (JObj [("manufacturers"%string, JList (map json_cell manufacturers));
                                   ("sorted_by"%string, JStr (lit "name"))]))
      end in
  (out, cache_after f).

(** A line of [versions]: the three selected columns and the parsed date. *)
Record Version := mkVersion {
  v_manufacturer : cell;
  v_name : cell;
  v_letterdate : cell;
  v_letterdate_dt : option Z }.

Definition same_pair (a b : Row) : bool :=
  (cell_eqb (manufacturername a) (manufacturername b) && cell_eqb (name a) (name b))%bool.

(** The order of [sort_values] on [letterdate_dt] (descending), then
    [manufacturername] and [name] (ascending), missing values last. *)
Definition version_le (a b : Version) : bool :=
  if negb (date_same (v_letterdate_dt a) (v_letterdate_dt b))
  then date_desc_le (v_letterdate_dt a) (v_letterdate_dt b)
  else if negb (cell_eqb (v_manufacturer a) (v_manufacturer b))
  then text_asc_le (v_manufacturer a) (v_manufacturer b)
  else text_asc_le (v_name a) (v_name b).

Definition versions_of (filtered_data : list Row) : list Version :=
  let versions := unique_by same_pair filtered_data in
  let versions :=
    map (fun r => mkVersion (manufacturername r) (name r) (letterdate r)
                    (parse_cell L (letterdate r))) versions in
  sort_by version_le versions.

Definition version_json (v : Version) : Json :=
  JObj [("manufacturer"%string, json_cell (v_manufacturer v));
        ("name"%string, json_cell (v_name v));
        ("date"%string, json_cell (v_letterdate v));
        ("display"%string,
         JStr (fmt_cell (v_manufacturer v) ++ lit " - " ++ fmt_cell (v_name v)
               ++ lit " (" ++ fmt_cell (v_letterdate v) ++ lit ")"))].

Definition get_versions (w : World) (year : Z) (manufacturers : list str) (mc : Cache)
  : Outcome * Cache :=
  match manufacturers with
  | [] => (Returned (jsonify (JObj [("error"%string, JStr (lit "No manufacturers selected"))])), mc)
  | _ =>
      let f := fetch_nhtsa_data w year mc in
      let data := table f in
      let out :=
        if df_empty data then
          Returned (jsonify (JObj [("error"%string,
                                    JStr (lit "No data available for year " ++ str_of_Z year))]))
        else if negb (has_column "manufacturername" data) then Raised (KeyError "manufacturername")
        else
          let filtered_data :=
            List.filter (fun r => existsb (fun m => cell_is m (manufacturername r)) manufacturers)
                        (rows data) in
          match filtered_data with
          | [] => Returned (jsonify (JObj [("error"%string,
                                            JStr (lit "No versions found for selected manufacturers"))]))
          | _ =>
              if negb (has_column "name" data) then Raised (KeyError "name")
              else if negb (has_column "letterdate" data) then Raised (KeyError "letterdate")
              else
                Returned (jsonify (JObj [("versions"%string,
                                          JList (map version_json (versions_of filtered_data)))]))
          end in
      (out, cache_after f)
  end.

(** The two selections of [get_pdf] and the one it goes on with.  A
    column that is not of text equals no string, and has no [.str]. *)
Definition exact_match (manufacturer version : str) (data : DataFrame) : list Row :=
  if (column_is_text L (map manufacturername (rows data))
      && column_is_text L (map name (rows data)))%bool
  then List.filter (fun r => (cell_is manufacturer (manufacturername r)
                              && cell_is version (name r))%bool)
                   (rows data)
  else [].

Definition lower_cell (c : cell) : cell := lower L <$> c.

Definition insensitive_match (manufacturer version : str) (data : DataFrame) : Exn + list Row :=
  if negb (column_is_text L (map manufacturername (rows data))) then inl AttributeError
  else if negb (column_is_text L (map name (rows data))) then inl AttributeError
  else inr (List.filter (fun r => (cell_is (lower L manufacturer) (lower_cell (manufacturername r))
                                   && cell_is (lower L version) (lower_cell (name r)))%bool)
                        (rows data)).

Definition lookup_version (manufacturer version : str) (data : DataFrame) : Exn + list Row :=
  let version_data := exact_match manufacturer version data in
  match version_data with
  | [] => insensitive_match manufacturer version data
  | _ => inr version_data
  end.

Definition truthy (s : option str) : bool :=
  match s with Some (_ :: _) => true | _ => false end.

Definition get_pdf (w : World) (method : Method) (year : Z) (manufacturer version : option str)
    (mc : Cache) : Outcome * Cache :=
  match manufacturer, version with
  | Some ((_ :: _) as manufacturer), Some ((_ :: _) as version) =>
      let f := fetch_nhtsa_data w year mc in
      let nhtsa_data := table f in
      let out :=
        if df_empty nhtsa_data then
          Returned (jsonify (JObj [("error"%string,
                                    JStr (lit "No data available for year " ++ str_of_Z year))]))
        else if negb (has_column "manufacturername" nhtsa_data) then Raised (KeyError "manufacturername")
        else if negb (has_column "name" nhtsa_data) then Raised (KeyError "name")
        else
          match lookup_version manufacturer version nhtsa_data with
          | inl e => Raised e
          | inr [] =>
              Returned (jsonify (JObj [("error"%string,
                  JStr (lit "Version " ++ [34%N] ++ version ++ [34%N]
                        ++ lit " not found for manufacturer " ++ [34%N] ++ manufacturer ++ [34%N]))]))
          | inr (first :: _) =>
              if negb (has_column "url" nhtsa_data) then
                Returned (jsonify (JObj [("error"%string, JStr (lit "PDF URL not available in data"))]))
              else
                let pdf_url := url first in
                match pdf_host w pdf_url with
                | PdfHttp status_code content =>
                    if status_code =? 200 then
                      let filename :=
                        str_of_Z year ++ lit "_" ++ clean_filename manufacturer ++ lit "_"
                        ++ clean_filename version ++ lit ".pdf" in
                      let as_attachment := match method with GET => false | POST => true end in
                      match send_file_lib L method content as_attachment filename with
                      | SendOk status body =>
                          Returned (FileResponse status "application/pdf" as_attachment filename body)
                      | SendError message =>
                          Returned (jsonify (JObj [("error"%string,
                                                    JStr (lit "Error accessing PDF: " ++ message))]))
                      end
                    else
                      Returned (jsonify (JObj [("error"%string,
                          JStr (lit "Could not fetch PDF. Status code: " ++ str_of_Z status_code))]))
                | PdfError message =>
                    Returned (jsonify (JObj [("error"%string,
                                              JStr (lit "Error accessing PDF: " ++ message))]))
                end
          end in
      (out, cache_after f)
  | _, _ => (Returned (jsonify (JObj [("error"%string, JStr (lit "Missing manufacturer or version"))])), mc)
  end.

End Handlers.

(** ** A concrete library, for running the handlers

    Dates written month/day/year, the way the NHTSA service writes them,
    parsed to the integer [yyyymmdd]; anything else is [NaT].  Case mapping
    on the ASCII letters. *)

Module Mdy.

Definition SLASH : char := 47%N.

Fixpoint split_on (sep : char) (s : str) : list str :=
  match s with
  | [] => [[]]
  | c :: s' =>
      if N.eqb c sep then [] :: split_on sep s'
      else match split_on sep s' with
           | [] => [[c]]
           | w :: ws => (c :: w) :: ws
           end
  end.

Fixpoint digits (acc : Z) (s : str) : option Z :=
  match s with
  | [] => Some acc
  | c :: s' => if is_digit09 c then digits (acc * 10 + Z.of_N (c - 48)) s' else None
  end.

Definition number (s : str) : option Z :=
  match s with [] => None | _ => digits 0 s end.

Definition to_datetime (s : str) : option Z :=
  match split_on SLASH s with
  | [m; d; y] =>
      match number m, number d, number y with
      | Some m, Some d, Some y =>
          if ((1 <=? m) && (m <=? 12) && (1 <=? d) && (d <=? 31) && (1 <=? y) && (y <=? 9999))%bool
          then Some (y * 10000 + m * 100 + d) else None
      | _, _, _ => None
      end
  | _ => None
  end.

Definition pad (width : nat) (s : str) : str :=
  repeat 48%N (width - length s) ++ s.

Definition strftime_ymd (t : Z) : str :=
  pad 4 (str_of_Z (t / 10000)) ++ lit "-" ++ pad 2 (str_of_Z (t / 100 mod 100))
  ++ lit "-" ++ pad 2 (str_of_Z (t mod 100)).

Definition lower (s : str) : str :=
  map (fun c => if is_upper_az c then (c + 32)%N else c) s.

(** A field of digits is a number. *)
Definition is_number (s : str) : bool :=
  match number s with Some _ => true | None => false end.

(** The whole file with status 200, as for a request without a range and a
    name without a line break. *)
Definition send_file_lib (method : Method) (content : list N) (as_attachment : bool)
    (download_name : str) : Sent :=
  SendOk 200 content.

Definition library : Library :=
  mkLibrary lower to_datetime strftime_ymd is_number false send_file_lib.

End Mdy.

(** ** Vocabulary of the properties *)

(** The three ways one page can end the pagination: a status other than
    200, a page of fewer than ten rows, an exception from the request or
    from the parser. *)
Definition bad_status (r : Reply) : bool :=
  match r with
  | Http status_code _ => negb (status_code =? 200)
  | ConnectionError => false
  end.

Definition short_page (r : Reply) : bool :=
  match r with
  | Http status_code (Some df) => ((status_code =? 200) && (df_empty df || (df_len df <? 10)))%bool
  | _ => false
  end.

Definition raised (r : Reply) : bool :=
  match r with
  | ConnectionError => true
  | Http status_code None => status_code =? 200
  | Http _ (Some _) => false
  end.

Definition stops (r : Reply) : bool := (bad_status r || short_page r || raised r)%bool.

(** The page a reply carries when it does not end the pagination. *)
Definition full_page (r : Reply) : option DataFrame :=
  match r with
  | Http status_code (Some df) =>
      if ((status_code =? 200) && negb (df_empty df || (df_len df <? 10)))%bool then Some df else None
  | _ => None
  end.

(** The rows of a page as they stand in a concatenation. *)
Definition page_rows (df : DataFrame) : list Row := map (reindex (columns df)) (rows df).

(** No entry of the cache holds an empty table. *)
Definition cache_inv (memory_cache : Cache) : Prop :=
  forall year cached_time data,
    memory_cache !! year = Some (cached_time, data) -> df_empty data = false.

(** The requests the application serves, and a run of the application
    over a sequence of them, each in its own state of the world. *)
Inductive Request :=
| ReqManufacturers (w : World) (year : Z) (sort : option str)
| ReqVersions (w : World) (year : Z) (manufacturers : list str)
| ReqPdf (w : World) (method : Method) (year : Z) (manufacturer version : option str).

Definition serve (L : Library) (q : Request) (mc : Cache) : Outcome * Cache :=
  match q with
  | ReqManufacturers w year sort => get_manufacturers L w year sort mc
  | ReqVersions w year manufacturers => get_versions L w year manufacturers mc
  | ReqPdf w method year manufacturer version => get_pdf L w method year manufacturer version mc
  end.

Definition run (L : Library) (qs : list Request) (mc : Cache) : Cache :=
  fold_left (fun mc q => snd (serve L q mc)) qs mc.

(** The most recent date of a manufacturer: the latest of the instants its
    letter dates parse to. *)
Definition latest (l : list (option Z)) : option Z :=
  foldr (fun d acc =>
           match d, acc with
           | Some x, Some y => Some (Z.max x y)
           | Some x, None => Some x
           | None, _ => acc
           end) None l.

Definition most_recent_date (L : Library) (data : DataFrame) (m : str) : option Z :=
  latest (map (fun r => parse_cell L (letterdate r))
              (List.filter (fun r => cell_is m (manufacturername r)) (rows data))).

(** The order of the version list, as a relation: later dates first, dates
    that did not parse last, then the manufacturer and the document name in
    ascending order of the strings, a missing one last. *)
Definition str_lt (a b : str) : Prop := str_ltb a b = true.




(** The lines of the date branch of [get_manufacturers] before they are
    sorted, and one line of its answer. *)
Definition dated (L : Library) (data : DataFrame) : list (str * option Z) :=
  map (fun kd => (fst kd, parse_cell L (snd kd))) (group_max_letterdate data).

Definition manufacturer_json (L : Library) (kd : str * option Z) : Json :=
  JObj [("name"%string, JStr (fst kd));
        ("latest_date"%string,
         JStr (match snd kd with
               | Some t => strftime_ymd L t
               | None => lit "No date"
               end))].





(** The message and the file name of [get_pdf]. *)
Definition QUOTE : char := 34%N.

Definition not_found_message (manufacturer version : str) : str :=
  lit "Version " ++ [QUOTE] ++ version ++ [QUOTE]
  ++ lit " not found for manufacturer " ++ [QUOTE] ++ manufacturer ++ [QUOTE].

Definition pdf_name (year : Z) (manufacturer version : str) : str :=
  str_of_Z year ++ lit "_" ++ clean_filename manufacturer ++ lit "_"
  ++ clean_filename version ++ lit ".pdf".

Definition is_post (method : Method) : bool :=
  match method with POST => true | GET => false end.

(** ** Sample data *)

Module Sample.

Definition labels : list string := ["letterdate"; "manufacturername"; "name"; "url"]%string.

Definition letter (manufacturer document date : string) : Row :=
  mkRow (Some (lit manufacturer)) (Some (lit document)) (Some (lit date))
        (Some (lit "https://vpic.nhtsa.dot.gov/mid/home/displayfile/" ++ lit document)).

(** Ten letters of two manufacturers; ACME wrote last, on 1 December. *)
Definition letters : DataFrame :=
  mkFrame labels
    [ letter "ACME" "ORG1" "9/1/2020"; letter "ACME" "ORG2" "12/1/2020";
      letter "BOLT" "ORG3" "10/1/2020"; letter "BOLT" "ORG4" "10/1/2020";
      letter "BOLT" "ORG5" "10/1/2020"; letter "BOLT" "ORG6" "10/1/2020";
      letter "BOLT" "ORG7" "10/1/2020"; letter "BOLT" "ORG8" "10/1/2020";
      letter "BOLT" "ORG9" "10/1/2020"; letter "BOLT" "ORG10" "10/1/2020" ].

(** The same letters, the first with no manufacturer name. *)
Definition letters_unnamed : DataFrame :=
  mkFrame labels
    (mkRow None (Some (lit "ORG0")) (Some (lit "8/1/2020")) None :: rows letters).

(** The same letters without the column of the manufacturer names. *)
Definition letters_no_manufacturer : DataFrame :=
  mkFrame ["letterdate"; "name"; "url"]%string
    (map (reindex ["letterdate"; "name"; "url"]%string) (rows letters)).

(** A service with one full page for every year, then nothing. *)
Definition serving (page1 : DataFrame) (now : Z) : World :=
  mkWorld now now
    (fun year page => if page =? 1 then Http 200 (Some page1) else Http 200 (Some (mkFrame (columns page1) [])))
    (fun pdf_url => PdfHttp 404 []).

End Sample.

(** ** The year picker *)

(** [range(start, stop, -1)]. *)
Definition range_down (start stop : Z) : list Z :=
  map (fun i => start - Z.of_nat i) (seq 0 (Z.to_nat (start - stop))).

(** [get_year_range], the year of [datetime.now()] being given. *)
Definition get_year_range (current_year : Z) : list Z :=
  range_down current_year 1980.

(** ** More vocabulary *)

Definition year_of (q : Request) : Z :=
  match q with
  | ReqManufacturers _ year _ => year
  | ReqVersions _ year _ => year
  | ReqPdf _ _ year _ _ => year
  end.

(** No field of the column is one that [read_csv] takes for a number. *)
Definition plain_text (L : Library) (cells : list cell) : bool :=
  forallb (fun c => match c with Some s => negb (is_number L s) | None => true end) cells.

Definition count_char (c : char) (s : str) : nat := length (List.filter (N.eqb c) s).

Definition DOT : char := 46%N.
Definition SLASH : char := 47%N.
Definition BACKSLASH : char := 92%N.

(** The answers of the handlers when there is no data for the year. *)
Definition no_data_found (year : Z) : Response :=
  jsonify (JObj [("manufacturers"%string, JList []);
                 ("error"%string, JStr (lit "No data found for year " ++ str_of_Z year))]).

Definition no_data_available (year : Z) : Response :=
  jsonify (JObj [("error"%string, JStr (lit "No data available for year " ++ str_of_Z year))]).

(** The greatest letter date of a manufacturer, as [group_max_letterdate]
    takes it. *)
Definition greatest_letterdate (data : DataFrame) (m : str) : cell :=
  str_max (texts (map letterdate
                    (List.filter (fun r => cell_is m (manufacturername r)) (rows data)))).

Module Demo.

(** The ten sample letters, none with a document name. *)
Definition letters_no_names : DataFrame :=
  mkFrame Sample.labels
    (map (fun r => mkRow (manufacturername r) None (letterdate r) (url r)) (rows Sample.letters)).

(** A host that serves every document. *)
Definition pdf_bytes : list N := [37; 80; 68; 70]%N.

Definition serving_pdf (page1 : DataFrame) (now : Z) : World :=
  mkWorld now now
    (fun year page => if page =? 1 then Http 200 (Some page1) else ConnectionError)
    (fun pdf_url => PdfHttp 200 pdf_bytes).

(** A service that is down. *)
Definition down (now : Z) : World :=
  mkWorld now now (fun year page => ConnectionError) (fun pdf_url => PdfError (lit "unreachable")).

(** A service with ten full pages and more behind them. *)
Definition endless (now : Z) : World :=
  mkWorld now now (fun year page => Http 200 (Some Sample.letters)) (fun pdf_url => PdfHttp 404 []).

End Demo.

(** * Properties *)

(** ** Strings *)

Lemma str_eqb_eq (a b : str) : str_eqb a b = true <-> a = b.
Proof.
  revert b; induction a as [|x a IH]; intros [|y b]; simpl; split; try easy.
  - intros H. apply andb_prop in H as [Hx Hab].
    apply N.eqb_eq in Hx. apply IH in Hab. congruence.
  - intros [= -> ->]. apply andb_true_intro. split; [apply N.eqb_refl | now apply IH].
Qed.


Lemma str_ltb_irrefl (a : str) : str_ltb a a = false.
Proof.
  induction a as [|x a IH]; simpl; [reflexivity|].
  now rewrite N.ltb_irrefl, N.eqb_refl.
Qed.

Lemma str_ltb_trans (a b c : str) :
  str_ltb a b = true -> str_ltb b c = true -> str_ltb a c = true.
Proof.
  revert b c; induction a as [|x a IH]; intros [|y b] [|z c]; simpl; try easy.
  destruct (N.ltb_spec x y), (N.ltb_spec y z), (N.ltb_spec x z);
    destruct (N.eqb_spec x y), (N.eqb_spec y z), (N.eqb_spec x z);
    try easy; try lia.
  apply IH.
Qed.

Lemma str_ltb_total (a b : str) :
  str_ltb a b = false -> str_ltb b a = false -> a = b.
Proof.
  revert b; induction a as [|x a IH]; intros [|y b]; simpl; try easy.
  destruct (N.ltb_spec x y), (N.ltb_spec y x);
    destruct (N.eqb_spec x y), (N.eqb_spec y x); try easy; try lia.
  intros Hab Hba. subst. f_equal. now apply IH.
Qed.

Lemma str_ltb_asym (a b : str) : str_ltb a b = true -> str_ltb b a = false.
Proof.
  intros H. destruct (str_ltb b a) eqn:E; [|reflexivity].
  pose proof (str_ltb_trans _ _ _ H E) as F. now rewrite str_ltb_irrefl in F.
Qed.

(** ** Sorting *)

Section Sorting.

Context {A : Type} (le : A -> A -> bool).
Hypothesis le_total : forall x y, le x y = false -> le y x = true.
Hypothesis le_trans : forall x y z, le x y = true -> le y z = true -> le x z = true.

Lemma insert_by_perm (x : A) (l : list A) : Permutation (x :: l) (insert_by le x l).
Proof.
  induction l as [|y l IH]; simpl; [reflexivity|].
  destruct (le x y); [reflexivity|].
  rewrite perm_swap. now apply perm_skip.
Qed.

Lemma sort_by_perm (l : list A) : Permutation l (sort_by le l).
Proof.
  induction l as [|x l IH]; simpl; [reflexivity|].
  rewrite <- insert_by_perm. now apply perm_skip.
Qed.

Lemma insert_by_sorted (x : A) (l : list A) :
  StronglySorted (fun a b => le a b = true) l ->
  StronglySorted (fun a b => le a b = true) (insert_by le x l).
Proof.
  induction 1 as [|y l Hl IH Hy]; simpl.
  - repeat constructor.
  - destruct (le x y) eqn:E.
    + constructor; [now constructor|].
      constructor; [exact E|].
      eapply List.Forall_impl; [|exact Hy]. intros z Hz. now apply le_trans with y.
    + constructor; [exact IH|].
      apply (Permutation_Forall (insert_by_perm x l)).
      constructor; [now apply le_total | exact Hy].
Qed.

Lemma sort_by_sorted (l : list A) : StronglySorted (fun a b => le a b = true) (sort_by le l).
Proof.
  induction l as [|x l IH]; simpl; [constructor | now apply insert_by_sorted].
Qed.

Lemma sort_by_In (x : A) (l : list A) : In x (sort_by le l) <-> In x l.
Proof.
  split; apply Permutation_in; [symmetry|]; apply sort_by_perm.
Qed.

End Sorting.

(** ** [clean_filename] *)

(** C3, as the code has it: [clean_filename] keeps the ASCII letters and
    digits, the white space and the hyphens of its argument, in order, and
    writes an underscore for every space; every character of the result is
    an ASCII letter or digit, a hyphen, an underscore, or a white space
    character other than the space. *)
Theorem clean_filename_characters (text : str) :
  clean_filename text
  = map (fun c => if N.eqb c SPACE then UNDERSCORE else c)
        (List.filter (fun c => (is_ascii_alnum c || is_space c || N.eqb c HYPHEN)%bool) text)
  /\ forallb filename_char (clean_filename text) = true
  /\ ~ In SPACE (clean_filename text).
Proof.
  unfold clean_filename, re_sub_delete, replace_char, filename_junk.
  split; [|split].
  - f_equal. apply filter_ext. intros c. apply negb_involutive.
  - apply forallb_forall. intros c Hc.
    apply in_map_iff in Hc as (d & <- & Hd). apply filter_In in Hd as [_ Hd].
    rewrite negb_involutive in Hd. unfold filename_char.
    destruct (N.eqb_spec d SPACE) as [->|Hne]; [reflexivity|].
    apply orb_prop in Hd as [Hd|Hd]; [apply orb_prop in Hd as [Hd|Hd]|].
    + now rewrite Hd.
    + rewrite Hd. apply N.eqb_neq in Hne. rewrite Hne. simpl. now rewrite !orb_true_r.
    + rewrite Hd. now rewrite orb_true_r.
  - intros Hc. apply in_map_iff in Hc as (d & Hd & _).
    destruct (N.eqb_spec d SPACE); [discriminate Hd | congruence].
Qed.

(** C3, as the specification has it, fails on a name with a hyphen: the
    hyphen is neither removed nor alphanumeric nor an underscore. *)
Lemma clean_filename_keeps_hyphen :
  clean_filename (lit "a-b") = lit "a-b"
  /\ spec_clean_filename (lit "a-b") = lit "ab"
  /\ forallb alnum_or_underscore (clean_filename (lit "a-b")) = false.
Proof. repeat split. Qed.

(** ** The pagination loop *)

Lemma stops_full_page (r : Reply) : stops r = false -> exists df,
  r = Http 200 (Some df) /\ full_page r = Some df /\ df_empty df = false /\ 10 <= df_len df.
Proof.
  destruct r as [|s [df|]]; unfold stops; simpl; try discriminate.
  - destruct (Z.eqb_spec s 200) as [->|]; simpl; [|discriminate].
    rewrite orb_false_r. intros H. exists df. rewrite H. simpl.
    apply orb_false_elim in H as [He Hl]. apply Z.ltb_ge in Hl. auto.
  - destruct (s =? 200); discriminate.
Qed.

Lemma stops_no_page (r : Reply) : stops r = true -> full_page r = None.
Proof.
  destruct r as [|s [df|]]; unfold stops; simpl; try reflexivity.
  destruct (s =? 200); simpl; [|reflexivity].
  rewrite orb_false_r. now intros ->.
Qed.

(** With fuel for every page that is left, the loop ends, and it asks
    for exactly the pages up to the first that stops it. *)
Lemma fetch_pages_spec (get : Z -> Reply) (fuel : nat) :
  forall page all_data asked,
    1 <= page -> Z.max 1 (max_pages + 2 - page) <= Z.of_nat fuel ->
    exists data more,
      fetch_pages fuel get page all_data asked = Some (data, asked ++ more)
      /\ (forall p, In p more <->
                    page <= p <= max_pages /\ forall q, page <= q < p -> stops (get q) = false)
      /\ StronglySorted Z.lt more
      /\ data = fold_left concat (omap (fun p => full_page (get p)) more) all_data.
Proof.
  induction fuel as [|fuel IH]; intros page all_data asked Hpage Hfuel.
  - simpl in Hfuel. lia.
  - simpl. destruct (Z.leb_spec page max_pages) as [Hle|Hgt].
    + assert (Hstop : stops (get page) = true ->
                exists data more,
                  Some (all_data, asked ++ [page]) = Some (data, asked ++ more)
                  /\ (forall p, In p more <->
                        page <= p <= max_pages /\ forall q, page <= q < p -> stops (get q) = false)
                  /\ StronglySorted Z.lt more
                  /\ data = fold_left concat (omap (fun p => full_page (get p)) more) all_data).
      { intros Hs. exists all_data, [page]. split; [reflexivity|]. split; [|split].
        - intros p. simpl. split.
          + intros [<-|[]]. split; [lia|]. intros q Hq. lia.
          + intros [Hp Hq]. left. destruct (Z.eq_dec page p) as [|Hne]; [assumption|].
            rewrite (Hq page) in Hs; [discriminate | lia].
        - repeat constructor.
        - cbn. now rewrite (stops_no_page _ Hs). }
      destruct (get page) as [|s [df|]] eqn:Hget.
      * now apply Hstop.
      * destruct (Z.eqb_spec s 200) as [->|Hs]; simpl.
        -- destruct (df_empty df || (df_len df <? 10))%bool eqn:Hshort.
           ++ apply Hstop. unfold stops. simpl. now rewrite Hshort.
           ++ destruct (IH (page + 1) (concat all_data df) (asked ++ [page]))
                as (data & more & Hrun & Hin & Hsorted & Hdata); [lia | unfold max_pages in *; lia |].
              assert (Hgo : stops (get page) = false).
              { rewrite Hget. unfold stops. simpl. now rewrite Hshort. }
              exists data, (page :: more). split; [|split; [|split]].
              ** rewrite Hrun. now rewrite <- app_assoc.
              ** intros p. simpl. rewrite Hin. split.
                 --- intros [<-|[Hp Hq]].
                     +++ split; [lia|]. intros q Hq. lia.
                     +++ split; [lia|]. intros q Hq'.
                         destruct (Z.eq_dec q page) as [->|]; [assumption|]. apply Hq. lia.
                 --- intros [Hp Hq]. destruct (Z.eq_dec page p) as [|Hne]; [now left|].
                     right. split; [lia|]. intros q Hq'. apply Hq. lia.
              ** constructor; [assumption|]. apply List.Forall_forall. intros p Hp.
                 apply Hin in Hp. lia.
              ** destruct (stops_full_page _ Hgo) as (df' & E1 & E2 & _).
                 rewrite Hget in E1. injection E1 as <-.
                 cbn. rewrite E2. cbn. exact Hdata.
        -- apply Hstop. unfold stops. simpl.
           destruct (Z.eqb_spec s 200); [contradiction | reflexivity].
      * destruct (Z.eqb_spec s 200) as [->|Hs]; simpl.
        -- apply Hstop. reflexivity.
        -- apply Hstop. unfold stops. simpl.
           destruct (Z.eqb_spec s 200); [contradiction | reflexivity].
    + exists all_data, []. rewrite app_nil_r. split; [reflexivity|]. split; [|split].
      * intros p. simpl. split; [easy | lia].
      * constructor.
      * reflexivity.
Qed.

Lemma fetch_loop_spec (get : Z -> Reply) :
  fetch_pages loop_fuel get 1 empty_frame [] = Some (fetch_loop get)
  /\ (forall p, In p (snd (fetch_loop get)) <->
                1 <= p <= max_pages /\ forall q, 1 <= q < p -> stops (get q) = false)
  /\ StronglySorted Z.lt (snd (fetch_loop get))
  /\ fst (fetch_loop get)
     = fold_left concat (omap (fun p => full_page (get p)) (snd (fetch_loop get))) empty_frame.
Proof.
  destruct (fetch_pages_spec get loop_fuel 1 empty_frame [])
    as (data & more & Hrun & Hin & Hsorted & Hdata); [lia | unfold max_pages, loop_fuel; lia |].
  unfold fetch_loop. rewrite Hrun. simpl. auto.
Qed.

Lemma fetch_requested (w : World) (year : Z) (mc : Cache) :
  requested (fetch_nhtsa_data w year mc) = []
  \/ requested (fetch_nhtsa_data w year mc) = snd (fetch_loop (nhtsa w year)).
Proof.
  unfold fetch_nhtsa_data.
  destruct (get_cached_data (now_lookup w) year mc) as [[cached|] mc']; [now left|].
  destruct (fetch_loop (nhtsa w year)) as [all_data asked]. now right.
Qed.

(** C1: the loop runs to completion; the pages it asks for are the page
    numbers from 1 up to the maximum of 10 that no earlier page has
    stopped, in ascending order; so after a page with a status other than
    200, a page of fewer than 10 rows, or a failed request, no page is
    asked for, and neither is any page beyond the tenth.  The requests of
    [fetch_nhtsa_data] are those of the loop, or none on a cache hit. *)
Theorem pagination_stops (get : Z -> Reply) :
  fetch_pages loop_fuel get 1 empty_frame [] = Some (fetch_loop get)
  /\ (forall p, In p (snd (fetch_loop get)) <->
                1 <= p <= max_pages /\ forall q, 1 <= q < p -> stops (get q) = false)
  /\ (forall p q, In p (snd (fetch_loop get)) ->
                  (bad_status (get p) = true \/ short_page (get p) = true \/ raised (get p) = true) ->
                  p < q -> ~ In q (snd (fetch_loop get)))
  /\ (forall q, max_pages < q -> ~ In q (snd (fetch_loop get)))
  /\ StronglySorted Z.lt (snd (fetch_loop get))
  /\ (forall w year mc p, nhtsa w year = get ->
        In p (requested (fetch_nhtsa_data w year mc)) -> In p (snd (fetch_loop get))).
Proof.
  destruct (fetch_loop_spec get) as (Hrun & Hin & Hsorted & _).
  split; [exact Hrun|]. split; [exact Hin|]. split; [|split; [|split]].
  - intros p q Hp Hstop Hpq Hq. apply Hin in Hp as [Hp _]. apply Hin in Hq as [_ Hq].
    specialize (Hq p ltac:(lia)). unfold stops in Hq.
    destruct Hstop as [H|[H|H]]; rewrite H in Hq; simpl in Hq;
      rewrite ?orb_true_r in Hq; discriminate.
  - intros q Hq Hin'. apply Hin in Hin'. lia.
  - exact Hsorted.
  - intros w year mc p <- Hp.
    destruct (fetch_requested w year mc) as [E|E]; rewrite E in Hp; [destruct Hp | exact Hp].
Qed.

(** ** Concatenation *)

Lemma keep_within (c1 c2 : list string) (c : string) (v : cell) :
  (forall c, existsb (String.eqb c) c1 = true -> existsb (String.eqb c) c2 = true) ->
  keep c2 c (keep c1 c v) = keep c1 c v.
Proof.
  intros Hsub. unfold keep. specialize (Hsub c).
  destruct (existsb (String.eqb c) c1).
  - now rewrite Hsub.
  - now destruct (existsb (String.eqb c) c2).
Qed.

Lemma reindex_within (c1 c2 : list string) (r : Row) :
  (forall c, existsb (String.eqb c) c1 = true -> existsb (String.eqb c) c2 = true) ->
  reindex c2 (reindex c1 r) = reindex c1 r.
Proof.
  intros Hsub. unfold reindex. cbn [manufacturername name letterdate url].
  now rewrite !keep_within.
Qed.

Lemma reindex_more (c1 c2 : list string) (r : Row) :
  (forall c, existsb (String.eqb c) c1 = true -> existsb (String.eqb c) c2 = true) ->
  reindex c1 r = r -> reindex c2 r = r.
Proof. intros Hsub E. rewrite <- E. now apply reindex_within. Qed.

Lemma existsb_app_l (c : string) (l1 l2 : list string) :
  existsb (String.eqb c) l1 = true -> existsb (String.eqb c) (l1 ++ l2) = true.
Proof. intros H. rewrite existsb_app, H. reflexivity. Qed.

Lemma columns_concat_r (c : string) (a b : DataFrame) :
  existsb (String.eqb c) (columns b) = true ->
  existsb (String.eqb c) (columns (concat a b)) = true.
Proof.
  intros H. unfold concat. simpl. rewrite existsb_app.
  destruct (existsb (String.eqb c) (columns a)) eqn:E; [reflexivity|]. simpl.
  apply existsb_exists in H as (x & Hx & Hcx). apply String.eqb_eq in Hcx. subst x.
  apply existsb_exists. exists c. split; [|apply String.eqb_refl].
  apply filter_In. split; [assumption|]. now rewrite E.
Qed.

(** The rows of a concatenation of pages are the rows of the pages. *)
Lemma rows_fold_concat (pages : list DataFrame) :
  forall all_data,
    Forall (fun r => reindex (columns all_data) r = r) (rows all_data) ->
    rows (fold_left concat pages all_data) = rows all_data ++ flat_map page_rows pages.
Proof.
  induction pages as [|df pages IH]; intros all_data Hall; simpl.
  - now rewrite app_nil_r.
  - assert (Hrows : rows (concat all_data df) = rows all_data ++ page_rows df).
    { unfold concat. simpl. f_equal. rewrite <- (map_id (rows all_data)) at 2.
      apply map_ext_in. intros r Hr. rewrite List.Forall_forall in Hall. now apply Hall. }
    rewrite IH, Hrows; [now rewrite <- app_assoc|].
    rewrite Hrows. apply Forall_app. split.
    + eapply List.Forall_impl; [|exact Hall]. intros r. apply reindex_more.
      intros c. unfold concat. simpl. apply existsb_app_l.
    + apply List.Forall_forall. intros r Hr. unfold page_rows in Hr.
      apply in_map_iff in Hr as (r0 & <- & _). apply reindex_within.
      intros c. apply columns_concat_r.
Qed.

(** C9: the table is the concatenation of the pages that did not stop the
    loop, each with at least 10 rows; a page that ends the pagination with
    fewer than 10 rows is the last one asked for, and the rows of the table
    are those of the pages before it, none of its own. *)
Theorem short_page_dropped (get : Z -> Reply) :
  rows (fst (fetch_loop get))
  = flat_map page_rows (omap (fun p => full_page (get p)) (snd (fetch_loop get)))
  /\ Forall (fun df => 10 <= df_len df) (omap (fun p => full_page (get p)) (snd (fetch_loop get)))
  /\ (forall p, In p (snd (fetch_loop get)) -> short_page (get p) = true ->
        full_page (get p) = None
        /\ (forall q, In q (snd (fetch_loop get)) -> q <= p)
        /\ rows (fst (fetch_loop get))
           = flat_map page_rows
               (omap (fun q => full_page (get q))
                     (List.filter (fun q => q <? p) (snd (fetch_loop get)))))
  /\ df_len (fst (fetch_loop get))
     = fold_right Z.add 0 (map df_len (omap (fun p => full_page (get p)) (snd (fetch_loop get)))).
Proof.
  destruct (fetch_loop_spec get) as (_ & Hin & Hsorted & Hdata).
  assert (Hrows : rows (fst (fetch_loop get))
                  = flat_map page_rows (omap (fun p => full_page (get p)) (snd (fetch_loop get)))).
  { rewrite Hdata at 1. rewrite rows_fold_concat; [reflexivity | constructor]. }
  split; [exact Hrows|]. split; [|split].
  - apply List.Forall_forall. intros df Hdf. apply list_elem_of_In in Hdf.
    apply list_elem_of_omap in Hdf as (p & _ & Hp).
    destruct (get p) as [|s [d|]]; simpl in Hp; try discriminate.
    destruct (s =? 200); simpl in Hp; [|discriminate].
    destruct (df_empty d || (df_len d <? 10))%bool eqn:E; simpl in Hp; [discriminate|].
    injection Hp as <-. apply orb_false_elim in E as [_ E]. now apply Z.ltb_ge in E.
  - intros p Hp Hshort.
    assert (Hs : stops (get p) = true).
    { unfold stops. rewrite Hshort. now rewrite orb_true_r. }
    assert (Hlast : forall q, In q (snd (fetch_loop get)) -> q <= p).
    { intros q Hq. apply Hin in Hp as [Hp _]. apply Hin in Hq as [_ Hq].
      destruct (Z.le_gt_cases q p) as [|Hlt]; [assumption|].
      rewrite (Hq p) in Hs; [discriminate | lia]. }
    split; [now apply stops_no_page|]. split; [exact Hlast|].
    rewrite Hrows. f_equal.
    clear Hrows Hdata Hsorted Hin Hp.
    induction (snd (fetch_loop get)) as [|q l IH]; [reflexivity|].
    assert (Hq : q <= p) by (apply Hlast; now left).
    specialize (IH (fun x Hx => Hlast x (or_intror Hx))).
    change (omap ?f (q :: l)) with
      (match f q with Some y => y :: omap f l | None => omap f l end).
    rewrite IH. cbn [List.filter].
    destruct (Z.ltb_spec q p) as [Hlt|Hge].
    + reflexivity.
    + assert (q = p) by lia. subst q. now rewrite (stops_no_page _ Hs).
  - unfold df_len at 1. rewrite Hrows. clear Hrows Hdata.
    induction (omap (fun p => full_page (get p)) (snd (fetch_loop get))) as [|df l IH];
      [reflexivity|].
    simpl. rewrite length_app, Nat2Z.inj_add, IH. unfold page_rows, df_len.
    now rewrite length_map.
Qed.

(** ** The cache *)

Lemma fetch_on_miss (w : World) (year : Z) (mc mc' : Cache) :
  get_cached_data (now_lookup w) year mc = (None, mc') ->
  table (fetch_nhtsa_data w year mc) = fst (fetch_loop (nhtsa w year))
  /\ requested (fetch_nhtsa_data w year mc) = snd (fetch_loop (nhtsa w year))
  /\ cache_after (fetch_nhtsa_data w year mc)
     = if negb (df_empty (fst (fetch_loop (nhtsa w year))))
       then cache_data (now_store w) year (fst (fetch_loop (nhtsa w year))) mc'
       else mc'.
Proof.
  intros E. unfold fetch_nhtsa_data. rewrite E.
  now destruct (fetch_loop (nhtsa w year)) as [all_data asked].
Qed.

Lemma fetch_on_hit (w : World) (year : Z) (mc mc' : Cache) (data : DataFrame) :
  get_cached_data (now_lookup w) year mc = (Some data, mc') ->
  fetch_nhtsa_data w year mc = mkFetched data [] mc'.
Proof. intros E. unfold fetch_nhtsa_data. now rewrite E. Qed.

Lemma first_page_requested (get : Z -> Reply) : In 1 (snd (fetch_loop get)).
Proof.
  destruct (fetch_loop_spec get) as (_ & Hin & _). apply Hin.
  unfold max_pages. split; [lia|]. intros q Hq. lia.
Qed.

(** C2: an entry stored at [cached_time] is returned if and only if less
    than 30 minutes have passed; from 30 minutes on, the boundary included,
    the entry is deleted and [None] is returned, and [fetch_nhtsa_data]
    then goes to the service on that very call, while it asks nothing of it
    before. *)
Theorem cache_expiry (now year : Z) (mc : Cache) (cached_time : Z) (data : DataFrame) :
  mc !! year = Some (cached_time, data) ->
  CACHE_DURATION = 30 * 60 * 1000000
  /\ (fst (get_cached_data now year mc) = Some data <-> now - cached_time < CACHE_DURATION)
  /\ (now - cached_time < CACHE_DURATION -> get_cached_data now year mc = (Some data, mc))
  /\ (CACHE_DURATION <= now - cached_time ->
        get_cached_data now year mc = (None, delete year mc)
        /\ delete year mc !! year = None)
  /\ (forall w, now_lookup w = now ->
        (now - cached_time < CACHE_DURATION ->
           fetch_nhtsa_data w year mc = mkFetched data [] mc)
        /\ (CACHE_DURATION <= now - cached_time ->
              requested (fetch_nhtsa_data w year mc) = snd (fetch_loop (nhtsa w year))
              /\ In 1 (requested (fetch_nhtsa_data w year mc))
              /\ table (fetch_nhtsa_data w year mc) = fst (fetch_loop (nhtsa w year)))).
Proof.
  intros Hentry.
  assert (Hfresh : now - cached_time < CACHE_DURATION ->
                   get_cached_data now year mc = (Some data, mc)).
  { intros H. unfold get_cached_data. rewrite Hentry.
    destruct (Z.ltb_spec (now - cached_time) CACHE_DURATION); [reflexivity | lia]. }
  assert (Hstale : CACHE_DURATION <= now - cached_time ->
                   get_cached_data now year mc = (None, delete year mc)).
  { intros H. unfold get_cached_data. rewrite Hentry.
    destruct (Z.ltb_spec (now - cached_time) CACHE_DURATION); [lia | reflexivity]. }
  split; [reflexivity|]. split; [|split; [exact Hfresh|split]].
  - split.
    + intros H. destruct (Z.lt_ge_cases (now - cached_time) CACHE_DURATION) as [|Hge];
        [assumption|]. rewrite (Hstale Hge) in H. discriminate.
    + intros H. now rewrite (Hfresh H).
  - intros H. split; [now apply Hstale | apply lookup_delete_eq].
  - intros w <-. split.
    + intros H. now apply fetch_on_hit, Hfresh.
    + intros H. destruct (fetch_on_miss w year mc _ (Hstale H)) as (Et & Er & _).
      rewrite Er, Et. split; [reflexivity|]. split; [apply first_page_requested | reflexivity].
Qed.

Lemma cache_expiry_witness :
  get_cached_data 1800000000 2020 (<[2020 := (0, Sample.letters)]> ∅)
  = (None, delete 2020 (<[2020 := (0, Sample.letters)]> ∅))
  /\ get_cached_data 1799999999 2020 (<[2020 := (0, Sample.letters)]> ∅)
     = (Some Sample.letters, <[2020 := (0, Sample.letters)]> ∅).
Proof.
  split.
  - apply (cache_expiry 1800000000 2020 (<[2020 := (0, Sample.letters)]> ∅) 0 Sample.letters);
      [reflexivity | vm_compute; discriminate].
  - apply (cache_expiry 1799999999 2020 (<[2020 := (0, Sample.letters)]> ∅) 0 Sample.letters);
      [reflexivity | reflexivity].
Defined.

Lemma cache_inv_empty : cache_inv ∅.
Proof. intros year t data H. now rewrite lookup_empty in H. Qed.

Lemma cache_inv_delete (year : Z) (mc : Cache) : cache_inv mc -> cache_inv (delete year mc).
Proof.
  intros Hinv y t data H. apply lookup_delete_Some in H as [_ H]. now apply (Hinv y t).
Qed.

Lemma cache_inv_get (now year : Z) (mc : Cache) :
  cache_inv mc -> cache_inv (snd (get_cached_data now year mc)).
Proof.
  intros Hinv. unfold get_cached_data.
  destruct (mc !! year) as [[t data]|]; [|assumption].
  destruct (now - t <? CACHE_DURATION); [assumption | now apply cache_inv_delete].
Qed.

Lemma cache_inv_store (now year : Z) (data : DataFrame) (mc : Cache) :
  cache_inv mc -> df_empty data = false -> cache_inv (cache_data now year data mc).
Proof.
  intros Hinv Hdata y t d H. unfold cache_data in H.
  apply lookup_insert_Some in H as [[_ [= <- <-]]|[_ H]]; [assumption | now apply (Hinv y t)].
Qed.

Lemma cache_inv_fetch (w : World) (year : Z) (mc : Cache) :
  cache_inv mc -> cache_inv (cache_after (fetch_nhtsa_data w year mc)).
Proof.
  intros Hinv. pose proof (cache_inv_get (now_lookup w) year mc Hinv) as Hget.
  destruct (get_cached_data (now_lookup w) year mc) as [[data|] mc'] eqn:E.
  - now rewrite (fetch_on_hit _ _ _ _ _ E).
  - destruct (fetch_on_miss _ _ _ _ E) as (_ & _ & ->).
    destruct (df_empty (fst (fetch_loop (nhtsa w year)))) eqn:Hempty; simpl; [assumption|].
    now apply cache_inv_store.
Qed.

Lemma serve_cache (L : Library) (q : Request) (mc : Cache) :
  snd (serve L q mc) = mc
  \/ exists w year, snd (serve L q mc) = cache_after (fetch_nhtsa_data w year mc).
Proof.
  destruct q as [w year sort|w year manufacturers|w method year manufacturer version]; simpl.
  - right. now exists w, year.
  - unfold get_versions. destruct manufacturers; [now left|]. right. now exists w, year.
  - unfold get_pdf.
    destruct manufacturer as [[|? ?]|]; [now left| |now left].
    destruct version as [[|? ?]|]; [now left| |now left].
    right. now exists w, year.
Qed.

Lemma cache_inv_run (L : Library) (qs : list Request) :
  forall mc, cache_inv mc -> cache_inv (run L qs mc).
Proof.
  induction qs as [|q qs IH]; intros mc Hinv; [assumption|].
  apply IH. destruct (serve_cache L q mc) as [->|(w & year & ->)];
    [assumption | now apply cache_inv_fetch].
Qed.

(** C10: the cache never holds an empty table.  This is so of the empty
    cache and is kept by [get_cached_data], by [cache_data] on a table that
    is not empty (the only way [fetch_nhtsa_data] calls it), by
    [fetch_nhtsa_data] and by any run of requests; and after a fetch that
    found no data the year has no entry, so that the next fetch for that
    year goes to the service again. *)
Theorem cache_never_empty (L : Library) (qs : list Request) :
  cache_inv (run L qs ∅)
  /\ (forall mc, cache_inv mc ->
        (forall now year, cache_inv (snd (get_cached_data now year mc)))
        /\ (forall now year data, df_empty data = false -> cache_inv (cache_data now year data mc))
        /\ (forall w year, cache_inv (cache_after (fetch_nhtsa_data w year mc)))
        /\ (forall q, cache_inv (snd (serve L q mc))))
  /\ (forall w year,
        df_empty (table (fetch_nhtsa_data w year (run L qs ∅))) = true ->
        cache_after (fetch_nhtsa_data w year (run L qs ∅)) !! year = None
        /\ forall w', requested (fetch_nhtsa_data w' year
                                   (cache_after (fetch_nhtsa_data w year (run L qs ∅))))
                      = snd (fetch_loop (nhtsa w' year))
                      /\ In 1 (snd (fetch_loop (nhtsa w' year)))).
Proof.
  pose proof (cache_inv_run L qs ∅ cache_inv_empty) as Hrun.
  split; [exact Hrun|]. split.
  - intros mc Hinv. repeat split.
    + intros now year. now apply cache_inv_get.
    + intros now year data Hdata. now apply cache_inv_store.
    + intros w year. now apply cache_inv_fetch.
    + intros q. destruct (serve_cache L q mc) as [->|(w & year & ->)];
        [assumption | now apply cache_inv_fetch].
  - intros w year Hempty. set (mc := run L qs ∅) in *.
    assert (Hnone : cache_after (fetch_nhtsa_data w year mc) !! year = None).
    { destruct (get_cached_data (now_lookup w) year mc) as [[data|] mc'] eqn:E.
      - exfalso. rewrite (fetch_on_hit _ _ _ _ _ E) in Hempty. simpl in Hempty.
        unfold get_cached_data in E.
        destruct (mc !! year) as [[t d]|] eqn:Hy; [|discriminate].
        destruct (now_lookup w - t <? CACHE_DURATION); [|discriminate].
        injection E as <- _. rewrite (Hrun _ _ _ Hy) in Hempty. discriminate.
      - destruct (fetch_on_miss _ _ _ _ E) as (Et & _ & ->).
        rewrite Et in Hempty. rewrite Hempty. simpl.
        unfold get_cached_data in E.
        destruct (mc !! year) as [[t d]|] eqn:Hy; [|now injection E as <-].
        destruct (now_lookup w - t <? CACHE_DURATION); [discriminate|].
        injection E as <-. apply lookup_delete_eq. }
    split; [exact Hnone|]. intros w'.
    split; [|apply first_page_requested].
    assert (Hmiss : get_cached_data (now_lookup w') year (cache_after (fetch_nhtsa_data w year mc))
                    = (None, cache_after (fetch_nhtsa_data w year mc))).
    { unfold get_cached_data. now rewrite Hnone. }
    now destruct (fetch_on_miss _ _ _ _ Hmiss) as (_ & -> & _).
Qed.

(** ** Orders on cells, dates and versions *)

Lemma cell_eqb_eq (a b : cell) : cell_eqb a b = true <-> a = b.
Proof.
  destruct a as [x|], b as [y|]; simpl; try easy.
  rewrite str_eqb_eq. split; congruence.
Qed.

Lemma cell_is_eq (s : str) (c : cell) : cell_is s c = true <-> c = Some s.
Proof.
  destruct c as [x|]; simpl; [|easy]. rewrite str_eqb_eq. split; congruence.
Qed.
















(** ** Duplicates *)

Lemma unique_by_In {A} (same : A -> A -> bool) (x : A) (l : list A) :
  In x (unique_by same l) -> In x l.
Proof.
  revert x; induction l as [|y l IH]; intros x; simpl; [easy|].
  intros [->|H]; [now left|]. apply filter_In in H as [H _]. right. now apply IH.
Qed.

Lemma unique_by_covers {A} (same : A -> A -> bool) (l : list A) :
  (forall a, same a a = true) ->
  (forall a b c, same a b = true -> same b c = true -> same a c = true) ->
  (forall a b, same a b = true -> same b a = true) ->
  forall x, In x l -> exists y, In y (unique_by same l) /\ same y x = true.
Proof.
  intros Hrefl Htrans Hsym. induction l as [|z l IH]; intros x; simpl; [easy|].
  intros [->|H].
  - exists x. split; [now left | apply Hrefl].
  - destruct (IH x H) as (y & Hy & Hyx).
    destruct (same z y) eqn:E.
    + exists z. split; [now left | now apply Htrans with y].
    + exists y. split; [|assumption]. right. apply filter_In. split; [assumption|]. now rewrite E.
Qed.

Lemma unique_by_distinct {A B} (same : A -> A -> bool) (f : A -> B) (l : list A) :
  (forall a b, f a = f b -> same a b = true) ->
  NoDup (map f (unique_by same l)).
Proof.
  intros Hsame. induction l as [|x l IH]; simpl; [constructor|].
  constructor.
  - intros H. apply list_elem_of_In, in_map_iff in H as (y & Hfy & Hy).
    apply filter_In in Hy as [_ Hy]. rewrite (Hsame x y) in Hy; [discriminate | congruence].
  - revert IH. generalize (unique_by same l). intros u Hu.
    induction u as [|y u IHu]; simpl; [constructor|].
    apply NoDup_cons in Hu as [Hy Hu].
    destruct (negb (same x y)); simpl; [|now apply IHu].
    constructor; [|now apply IHu].
    intros H. apply Hy. apply list_elem_of_In, in_map_iff in H as (z & Hz & Hin).
    apply filter_In in Hin as [Hin _]. apply list_elem_of_In, in_map_iff. now exists z.
Qed.


Lemma sorted_distinct {A B} (R R' : A -> A -> Prop) (f : A -> B) (l : list A) :
  (forall a b, R a b -> f a <> f b -> R' a b) ->
  StronglySorted R l -> NoDup (map f l) -> StronglySorted R' l.
Proof.
  intros Hstrict. induction 1 as [|x l Hl IH Hx]; simpl; intros Hnd; [constructor|].
  apply NoDup_cons in Hnd as [Hnx Hnd].
  constructor; [now apply IH|].
  rewrite List.Forall_forall in Hx |- *. intros y Hy.
  apply Hstrict; [now apply Hx|].
  intros E. apply Hnx. rewrite E. apply list_elem_of_In, in_map. exact Hy.
Qed.

(** ** [get_versions] *)







(** ** [get_pdf] *)

(** C4 fails on the code: when no row equals the request and the column
    of the document names holds no text (here every name is missing, and
    pandas reads the column as numbers), the case-insensitive selection
    raises on [.str] before the handler can answer that the version was
    not found. *)
Theorem pdf_lookup_raises_without_names :
  table (fetch_nhtsa_data (Sample.serving Demo.letters_no_names 0) 2020 ∅) = Demo.letters_no_names
  /\ has_column "manufacturername" Demo.letters_no_names = true
  /\ has_column "name" Demo.letters_no_names = true
  /\ exact_match Mdy.library (lit "ACME") (lit "ORG1") Demo.letters_no_names = []
  /\ List.filter (fun r => cell_is (Mdy.lower (lit "ORG1")) (lower_cell Mdy.library (name r)))
                 (rows Demo.letters_no_names) = []
  /\ fst (get_pdf Mdy.library (Sample.serving Demo.letters_no_names 0) GET 2020
            (Some (lit "ACME")) (Some (lit "ORG1")) ∅)
     = Raised AttributeError.
Proof. vm_compute. repeat split. Qed.

(** ** The lists of [get_manufacturers] *)

(** X17, what holds of the date branch on a table whose manufacturer names
    and letter dates are text, when the [max] of a group skips the missing
    dates or no manufacturer has both a dated and an undated letter: the
    list is in descending order of the parsed dates, a manufacturer whose
    date did not parse after all those whose date did; the date of a
    manufacturer is the one [group_max_letterdate] computes. *)
Lemma manufacturers_by_date_sorted (L : Library) (w : World) (year : Z) (sort : option str)
    (mc : Cache) (data : DataFrame) :
  table (fetch_nhtsa_data w year mc) = data ->
  df_empty data = false ->
  has_column "manufacturername" data = true ->
  has_column "letterdate" data = true ->
  str_eqb (default (lit "date") sort) (lit "date") = true ->
  plain_text L (map manufacturername (rows data)) = true ->
  plain_text L (map letterdate (rows data)) = true ->
  (max_skips_missing L || negb (mixes_missing data))%bool = true ->
  exists entries,
    fst (get_manufacturers L w year sort mc)
    = Returned (jsonify (JObj [("manufacturers"%string, JList (map (manufacturer_json L) entries));
                               ("sorted_by"%string, JStr (lit "date"))]))
    /\ Permutation (dated L data) entries
    /\ StronglySorted (fun a b => date_desc_le (snd a) (snd b) = true) entries.
Proof.
  intros Hdata Hempty Hm Hl Hsort _ _ Hmax.
  assert (Hgo : (negb (max_skips_missing L) && mixes_missing data)%bool = false).
  { destruct (max_skips_missing L), (mixes_missing data); try reflexivity; discriminate Hmax. }
  exists (sort_by (fun a b => date_desc_le (snd a) (snd b)) (dated L data)).
  split; [|split].
  - unfold get_manufacturers. cbv zeta. rewrite Hdata, Hempty, Hm, Hl, Hsort, Hgo. reflexivity.
  - apply sort_by_perm.
  - apply sort_by_sorted.
    + intros a b. destruct (snd a), (snd b); simpl; try easy. rewrite Z.leb_gt, Z.leb_le. lia.
    + intros a b c. destruct (snd a), (snd b), (snd c); simpl; try easy.
      rewrite !Z.leb_le. lia.
Qed.

Lemma str_leb_total (a b : str) : str_leb a b = false -> str_leb b a = true.
Proof.
  unfold str_leb. rewrite negb_false_iff, negb_true_iff. apply str_ltb_asym.
Qed.

Lemma str_leb_trans (a b c : str) : str_leb a b = true -> str_leb b c = true -> str_leb a c = true.
Proof.
  unfold str_leb. rewrite !negb_true_iff. intros Hba Hcb.
  destruct (str_ltb c a) eqn:Hca; [|reflexivity].
  destruct (str_ltb a b) eqn:Hab.
  - rewrite (str_ltb_trans _ _ _ Hca Hab) in Hcb. discriminate.
  - rewrite (str_ltb_total _ _ Hab Hba) in Hca. congruence.
Qed.

Lemma texts_In (s : str) (l : list cell) : In s (texts l) <-> In (Some s) l.
Proof.
  unfold texts. rewrite <- !list_elem_of_In, list_elem_of_omap. split.
  - intros (c & Hc & E). destruct c; simpl in E; [|discriminate]. now injection E as ->.
  - intros H. now exists (Some s).
Qed.

Lemma texts_distinct (l : list cell) : NoDup l -> NoDup (texts l).
Proof.
  induction 1 as [|c l Hc Hl IH]; [constructor|].
  destruct c as [s|]; cbn; [|exact IH].
  constructor; [|exact IH]. intros H. apply Hc.
  apply list_elem_of_In. apply texts_In. now apply list_elem_of_In.
Qed.

Lemma filter_distinct {A} (f : A -> bool) (l : list A) : NoDup l -> NoDup (List.filter f l).
Proof.
  induction 1 as [|x l Hx Hl IH]; simpl; [constructor|].
  destruct (f x); [|exact IH]. constructor; [|exact IH].
  intros H. apply Hx. apply list_elem_of_In in H. apply filter_In in H as [H _].
  now apply list_elem_of_In.
Qed.

Lemma py_sorted_texts (l : list cell) :
  forallb (fun c => match c with Some _ => true | None => false end) l = true ->
  py_sorted l = Some (map Some (sort_by str_leb (texts l))).
Proof. intros H. unfold py_sorted. now rewrite H. Qed.

(** X18, what holds of the name branch: on a table where no manufacturer name
    is missing and none reads as a number, the list holds the names that are not blank, each once, in
    ascending order of the strings. *)
Lemma manufacturers_by_name_sorted (L : Library) (w : World) (year : Z) (sort : option str)
    (mc : Cache) (data : DataFrame) :
  table (fetch_nhtsa_data w year mc) = data ->
  df_empty data = false ->
  has_column "manufacturername" data = true ->
  (str_eqb (default (lit "date") sort) (lit "date") && has_column "letterdate" data)%bool = false ->
  forallb (fun r => match manufacturername r with Some _ => true | None => false end) (rows data)
  = true ->
  plain_text L (map manufacturername (rows data)) = true ->
  exists names,
    fst (get_manufacturers L w year sort mc)
    = Returned (jsonify (JObj [("manufacturers"%string, JList (map json_cell (map Some names)));
                               ("sorted_by"%string, JStr (lit "name"))]))
    /\ StronglySorted str_lt names
    /\ (forall s, In s names <->
                  (exists r, In r (rows data) /\ manufacturername r = Some s)
                  /\ name_kept (Some s) = true).
Proof.
  intros Hdata Hempty Hm Hsort Hall _.
  set (cells := List.filter name_kept (unique_by cell_eqb (map manufacturername (rows data)))).
  assert (Hin : forall c, In c cells <-> In c (map manufacturername (rows data)) /\ name_kept c = true).
  { intros c. unfold cells. rewrite filter_In. split; intros [H K]; (split; [|assumption]).
    - now apply unique_by_In in H.
    - destruct (unique_by_covers cell_eqb (map manufacturername (rows data)))
        with (x := c) as (y & Hy & E); try assumption.
      + intros a. now apply cell_eqb_eq.
      + intros a b d. rewrite !cell_eqb_eq. congruence.
      + intros a b. rewrite !cell_eqb_eq. congruence.
      + apply cell_eqb_eq in E. now subst y. }
  assert (Hsome : forallb (fun c => match c with Some _ => true | None => false end) cells = true).
  { apply forallb_forall. intros c Hc. apply Hin in Hc as [Hc _].
    apply in_map_iff in Hc as (r & <- & Hr). rewrite forallb_forall in Hall. now apply Hall. }
  assert (Hnd : NoDup (texts cells)).
  { apply texts_distinct, filter_distinct.
    rewrite <- (map_id (unique_by cell_eqb _)). apply unique_by_distinct.
    intros a b ->. now apply cell_eqb_eq. }
  exists (sort_by str_leb (texts cells)). split; [|split].
  - unfold get_manufacturers. cbv zeta. rewrite Hdata, Hempty, Hm, Hsort. cbn [negb fst].
    fold cells. now rewrite (py_sorted_texts _ Hsome).
  - apply (sorted_distinct (fun a b => str_leb a b = true) str_lt id).
    + intros a b Hle Hne. unfold str_leb in Hle. apply negb_true_iff in Hle. unfold str_lt.
      destruct (str_ltb a b) eqn:E; [reflexivity|].
      exfalso. apply Hne. unfold id. now apply str_ltb_total.
    + apply sort_by_sorted; [apply str_leb_total | apply str_leb_trans].
    + rewrite map_id. eapply NoDup_Permutation_proper; [symmetry; apply sort_by_perm | exact Hnd].
  - intros s. rewrite sort_by_In, texts_In, Hin, in_map_iff. split.
    + intros [(r & E & Hr) K]. split; [now exists r | assumption].
    + intros [(r & Hr & E) K]. split; [now exists r | assumption].
Qed.

(** ** [get_manufacturers] *)

(** C5 fails on the code: the date of a manufacturer is the greatest of
    its letter dates compared as strings, taken before the dates are
    parsed.  ACME wrote on 9/1/2020 and on 12/1/2020 and BOLT on 10/1/2020;
    the most recent letter is ACME's, of 1 December, yet ACME is listed
    after BOLT, with 1 September as its latest date. *)
Theorem manufacturers_by_date_uses_string_order :
  table (fetch_nhtsa_data (Sample.serving Sample.letters 0) 2020 ∅) = Sample.letters
  /\ fst (get_manufacturers Mdy.library (Sample.serving Sample.letters 0) 2020 (Some (lit "date")) ∅)
     = Returned (jsonify (JObj
         [("manufacturers"%string,
           JList [JObj [("name"%string, JStr (lit "BOLT"));
                        ("latest_date"%string, JStr (lit "2020-10-01"))];
                  JObj [("name"%string, JStr (lit "ACME"));
                        ("latest_date"%string, JStr (lit "2020-09-01"))]]);
          ("sorted_by"%string, JStr (lit "date"))]))
  /\ most_recent_date Mdy.library Sample.letters (lit "ACME") = Some 20201201
  /\ most_recent_date Mdy.library Sample.letters (lit "BOLT") = Some 20201001.
Proof. vm_compute. repeat split. Qed.

(** C8 fails on the code: a missing manufacturer name passes the filter of
    the name branch, and sorting it with the names raises.  The table has
    the ten sample letters and one letter with no manufacturer name. *)
Theorem manufacturers_by_name_missing_value :
  table (fetch_nhtsa_data (Sample.serving Sample.letters_unnamed 0) 2020 ∅) = Sample.letters_unnamed
  /\ List.filter name_kept (unique_by cell_eqb (map manufacturername (rows Sample.letters_unnamed)))
     = [None; Some (lit "ACME"); Some (lit "BOLT")]
  /\ fst (get_manufacturers Mdy.library (Sample.serving Sample.letters_unnamed 0) 2020
            (Some (lit "name")) ∅)
     = Raised TypeError.
Proof. vm_compute. repeat split. Qed.

(** C7 fails on the code: on a table without the column of the
    manufacturer names, [get_manufacturers] answers with its JSON error,
    while [get_versions] and [get_pdf] raise a [KeyError] that nothing
    catches. *)
Theorem missing_column_not_caught :
  table (fetch_nhtsa_data (Sample.serving Sample.letters_no_manufacturer 0) 2020 ∅)
  = Sample.letters_no_manufacturer
  /\ fst (get_manufacturers Mdy.library (Sample.serving Sample.letters_no_manufacturer 0) 2020 None ∅)
     = Returned (jsonify (JObj [("manufacturers"%string, JList []);
                                ("error"%string, JStr (lit "Invalid data format received from API"))]))
  /\ fst (get_versions Mdy.library (Sample.serving Sample.letters_no_manufacturer 0) 2020
            [lit "ACME"] ∅)
     = Raised (KeyError "manufacturername")
  /\ fst (get_pdf Mdy.library (Sample.serving Sample.letters_no_manufacturer 0) GET 2020
            (Some (lit "ACME")) (Some (lit "ORG1")) ∅)
     = Raised (KeyError "manufacturername").
Proof. vm_compute. repeat split. Qed.

Lemma cache_never_empty_witness :
  cache_inv (run Mdy.library
               [ReqManufacturers (Sample.serving Sample.letters 0) 2020 None;
                ReqVersions (Sample.serving Sample.letters 1800000000) 2020 [lit "ACME"]] ∅)
  /\ cache_inv (cache_data 0 2020 Sample.letters ∅).
Proof.
  split.
  - exact (proj1 (cache_never_empty Mdy.library
             [ReqManufacturers (Sample.serving Sample.letters 0) 2020 None;
              ReqVersions (Sample.serving Sample.letters 1800000000) 2020 [lit "ACME"]])).
  - destruct (cache_never_empty Mdy.library []) as (Hinv & Hkept & _).
    destruct (Hkept ∅ Hinv) as (_ & Hstore & _).
    apply Hstore. reflexivity.
Defined.

(** * Further properties *)

(** ** The year picker *)

Lemma range_down_In (start stop y : Z) : In y (range_down start stop) <-> stop < y <= start.
Proof.
  unfold range_down. rewrite in_map_iff. split.
  - intros (i & <- & Hi). apply in_seq in Hi. lia.
  - intros Hy. exists (Z.to_nat (start - y)). split; [lia|]. apply in_seq. lia.
Qed.

Lemma range_down_sorted (start : Z) (n k : nat) :
  StronglySorted Z.gt (map (fun i => start - Z.of_nat i) (seq k n)).
Proof.
  revert k; induction n as [|n IH]; intros k; simpl; constructor; [apply IH|].
  apply List.Forall_forall. intros y Hy. apply in_map_iff in Hy as (i & <- & Hi).
  apply in_seq in Hi. lia.
Qed.

(** X1: the years offered are exactly the years after 1980 up to the
    current one, the most recent first; there are none when the clock is
    at 1980 or before. *)
Theorem year_range_spec (current_year : Z) :
  (forall y, In y (get_year_range current_year) <-> 1980 < y <= current_year)
  /\ StronglySorted Z.gt (get_year_range current_year)
  /\ Z.of_nat (length (get_year_range current_year)) = Z.max 0 (current_year - 1980)
  /\ (current_year <= 1980 -> get_year_range current_year = [])
  /\ (1980 < current_year -> hd_error (get_year_range current_year) = Some current_year).
Proof.
  unfold get_year_range. split; [|split; [|split; [|split]]].
  - intros y. apply range_down_In.
  - apply range_down_sorted.
  - unfold range_down. rewrite length_map, length_seq. lia.
  - intros H. unfold range_down. replace (Z.to_nat (current_year - 1980)) with O by lia.
    reflexivity.
  - intros H. unfold range_down.
    destruct (Z.to_nat (current_year - 1980)) as [|n] eqn:E; [lia|].
    simpl. f_equal. lia.
Qed.

(** ** Storing and looking up *)

(** X2: an entry just stored is what the next look-up within 30 minutes of
    the storing returns, whatever the cache held for the year before; from
    30 minutes on the look-up removes it and the cache is as if the year
    had never been stored. *)
Theorem cache_store_lookup (stored now year : Z) (data : DataFrame) (mc : Cache) :
  (now - stored < CACHE_DURATION ->
     get_cached_data now year (cache_data stored year data mc)
     = (Some data, cache_data stored year data mc))
  /\ (CACHE_DURATION <= now - stored ->
        get_cached_data now year (cache_data stored year data mc) = (None, delete year mc)).
Proof.
  unfold get_cached_data, cache_data. rewrite lookup_insert_eq. split; intros H.
  - destruct (Z.ltb_spec (now - stored) CACHE_DURATION); [reflexivity | lia].
  - destruct (Z.ltb_spec (now - stored) CACHE_DURATION); [lia|].
    now rewrite delete_insert_eq.
Qed.

Lemma get_cached_data_other (now year other : Z) (mc : Cache) :
  other <> year -> snd (get_cached_data now year mc) !! other = mc !! other.
Proof.
  intros Hne. unfold get_cached_data.
  destruct (mc !! year) as [[t data]|]; [|reflexivity].
  destruct (now - t <? CACHE_DURATION); [reflexivity|]. simpl.
  now apply lookup_delete_ne.
Qed.

Lemma fetch_other (w : World) (year other : Z) (mc : Cache) :
  other <> year -> cache_after (fetch_nhtsa_data w year mc) !! other = mc !! other.
Proof.
  intros Hne. pose proof (get_cached_data_other (now_lookup w) year other mc Hne) as Hget.
  destruct (get_cached_data (now_lookup w) year mc) as [[data|] mc'] eqn:E; simpl in Hget.
  - now rewrite (fetch_on_hit _ _ _ _ _ E).
  - destruct (fetch_on_miss _ _ _ _ E) as (_ & _ & ->).
    destruct (negb (df_empty (fst (fetch_loop (nhtsa w year))))); [|assumption].
    unfold cache_data. now rewrite lookup_insert_ne.
Qed.

(** X3: a request changes nothing of what the cache holds for the years
    other than its own: nothing is ever evicted on behalf of another year. *)
Theorem other_years_untouched (L : Library) (q : Request) (mc : Cache) (other : Z) :
  other <> year_of q -> snd (serve L q mc) !! other = mc !! other.
Proof.
  intros Hne.
  destruct q as [w year sort|w year manufacturers|w method year manufacturer version];
    simpl in Hne |- *.
  - now apply fetch_other.
  - unfold get_versions. destruct manufacturers; [reflexivity|]. now apply fetch_other.
  - unfold get_pdf.
    destruct manufacturer as [[|? ?]|]; try reflexivity.
    destruct version as [[|? ?]|]; try reflexivity.
    now apply fetch_other.
Qed.

Lemma other_years_untouched_witness :
  snd (serve Mdy.library (ReqManufacturers (Sample.serving Sample.letters 1800000000) 2021 None)
         (cache_data 0 2020 Sample.letters ∅)) !! 2020
  = cache_data 0 2020 Sample.letters ∅ !! 2020.
Proof.
  apply (other_years_untouched Mdy.library
           (ReqManufacturers (Sample.serving Sample.letters 1800000000) 2021 None)
           (cache_data 0 2020 Sample.letters ∅) 2020).
  simpl. lia.
Defined.

(** X4: when the look-up misses, [fetch_nhtsa_data] leaves the year with
    the table it built, stamped with the time of the storing, when the
    table is not empty, and with no entry when it is. *)
Theorem fetch_stores_table (w : World) (year : Z) (mc : Cache) :
  fst (get_cached_data (now_lookup w) year mc) = None ->
  cache_after (fetch_nhtsa_data w year mc) !! year
  = if df_empty (table (fetch_nhtsa_data w year mc)) then None
    else Some (now_store w, table (fetch_nhtsa_data w year mc)).
Proof.
  intros Hmiss.
  destruct (get_cached_data (now_lookup w) year mc) as [o mc'] eqn:E.
  simpl in Hmiss. subst o.
  destruct (fetch_on_miss _ _ _ _ E) as (-> & _ & ->).
  assert (Hnone : mc' !! year = None).
  { unfold get_cached_data in E. destruct (mc !! year) as [[t d]|] eqn:Hy.
    - destruct (now_lookup w - t <? CACHE_DURATION); [discriminate|].
      injection E as <-. apply lookup_delete_eq.
    - now injection E as <-. }
  destruct (df_empty (fst (fetch_loop (nhtsa w year)))); simpl; [assumption|].
  unfold cache_data. apply lookup_insert_eq.
Qed.

Lemma fetch_stores_table_witness :
  cache_after (fetch_nhtsa_data (Sample.serving Sample.letters 7) 2020 ∅) !! 2020
  = Some (7, Sample.letters).
Proof.
  rewrite (fetch_stores_table (Sample.serving Sample.letters 7) 2020 ∅) by reflexivity.
  reflexivity.
Defined.

Lemma fetch_hit_after_store (w w' : World) (year : Z) (mc : Cache) :
  fst (get_cached_data (now_lookup w) year mc) = None ->
  df_empty (table (fetch_nhtsa_data w year mc)) = false ->
  now_lookup w' - now_store w < CACHE_DURATION ->
  fetch_nhtsa_data w' year (cache_after (fetch_nhtsa_data w year mc))
  = mkFetched (table (fetch_nhtsa_data w year mc)) []
              (cache_after (fetch_nhtsa_data w year mc)).
Proof.
  intros Hmiss Hdata Hfresh.
  assert (Hentry : cache_after (fetch_nhtsa_data w year mc) !! year
                   = Some (now_store w, table (fetch_nhtsa_data w year mc))).
  { destruct (get_cached_data (now_lookup w) year mc) as [o mc'] eqn:E.
    simpl in Hmiss. subst o.
    destruct (fetch_on_miss _ _ _ _ E) as (Et & _ & Ec). rewrite Ec, Et in *.
    rewrite Hdata. simpl. unfold cache_data. apply lookup_insert_eq. }
  apply fetch_on_hit. unfold get_cached_data. rewrite Hentry.
  destruct (Z.ltb_spec (now_lookup w' - now_store w) CACHE_DURATION); [reflexivity | lia].
Qed.

(** X5: after a fetch that missed and brought back a table, a fetch for
    the same year less than 30 minutes after the storing returns that
    table and asks nothing of the service, whatever the service would
    answer by then. *)
Theorem second_fetch_is_served_from_cache (w w' : World) (year : Z) (mc : Cache) :
  fst (get_cached_data (now_lookup w) year mc) = None ->
  df_empty (table (fetch_nhtsa_data w year mc)) = false ->
  now_lookup w' - now_store w < CACHE_DURATION ->
  table (fetch_nhtsa_data w' year (cache_after (fetch_nhtsa_data w year mc)))
  = table (fetch_nhtsa_data w year mc)
  /\ requested (fetch_nhtsa_data w' year (cache_after (fetch_nhtsa_data w year mc))) = []
  /\ cache_after (fetch_nhtsa_data w' year (cache_after (fetch_nhtsa_data w year mc)))
     = cache_after (fetch_nhtsa_data w year mc).
Proof.
  intros Hmiss Hdata Hfresh.
  rewrite (fetch_hit_after_store w w' year mc Hmiss Hdata Hfresh). repeat split.
Qed.

Lemma second_fetch_is_served_from_cache_witness :
  table (fetch_nhtsa_data (Demo.down 1799999999) 2020
           (cache_after (fetch_nhtsa_data (Sample.serving Sample.letters 0) 2020 ∅)))
  = table (fetch_nhtsa_data (Sample.serving Sample.letters 0) 2020 ∅)
  /\ requested (fetch_nhtsa_data (Demo.down 1799999999) 2020
                  (cache_after (fetch_nhtsa_data (Sample.serving Sample.letters 0) 2020 ∅)))
     = [].
Proof.
  destruct (second_fetch_is_served_from_cache (Sample.serving Sample.letters 0)
              (Demo.down 1799999999) 2020 ∅) as (H1 & H2 & _); try reflexivity.
  now split.
Defined.

(** ** What the loop brings back *)

Lemma df_len_concat (a b : DataFrame) : df_len (concat a b) = df_len a + df_len b.
Proof. unfold df_len, concat. simpl. rewrite length_app, !length_map. lia. Qed.

Lemma columns_concat_l (a b : DataFrame) : columns a <> [] -> columns (concat a b) <> [].
Proof. unfold concat. simpl. now destruct (columns a). Qed.

Lemma columns_concat_empty (b : DataFrame) : columns (concat empty_frame b) = columns b.
Proof.
  unfold concat. simpl. induction (columns b) as [|c l IH]; [reflexivity|].
  simpl. now rewrite IH.
Qed.

Lemma fold_concat_grows (pages : list DataFrame) :
  forall a, columns a <> [] ->
    columns (fold_left concat pages a) <> [] /\ df_len a <= df_len (fold_left concat pages a).
Proof.
  induction pages as [|df pages IH]; intros a Ha; simpl; [split; [assumption | lia]|].
  destruct (IH (concat a df) (columns_concat_l a df Ha)) as [Hc Hl].
  split; [assumption|]. rewrite df_len_concat in Hl. unfold df_len in *. lia.
Qed.

Lemma df_empty_false (df : DataFrame) :
  df_empty df = false <-> columns df <> [] /\ 0 < df_len df.
Proof.
  unfold df_empty, df_len. destruct (columns df), (rows df); simpl; split;
    try easy; try (intros [H1 H2]; try contradiction; lia).
Qed.

Lemma fetch_loop_first_stops (get : Z -> Reply) :
  stops (get 1) = true -> fetch_loop get = (empty_frame, [1]).
Proof.
  intros Hs. unfold fetch_loop, loop_fuel. cbn [fetch_pages].
  change (1 <=? max_pages) with true. cbv iota.
  destruct (get 1) as [|s [df|]]; [reflexivity| |].
  - unfold stops in Hs. simpl in Hs.
    destruct (s =? 200); simpl in *; [|reflexivity].
    rewrite orb_false_r in Hs. now rewrite Hs.
  - now destruct (s =? 200).
Qed.

Lemma fetch_pages_step (get : Z -> Reply) (fuel : nat) (page : Z) (all_data : DataFrame)
    (asked : list Z) :
  page <= max_pages -> stops (get page) = false ->
  exists df,
    full_page (get page) = Some df /\ 10 <= df_len df
    /\ fetch_pages (S fuel) get page all_data asked
       = fetch_pages fuel get (page + 1) (concat all_data df) (asked ++ [page]).
Proof.
  intros Hle Hs. destruct (stops_full_page _ Hs) as (df & Hget & Hfull & Hne & Hlen).
  exists df. split; [assumption|]. split; [assumption|].
  cbn [fetch_pages]. destruct (Z.leb_spec page max_pages); [|lia].
  rewrite Hget. change (negb (200 =? 200)) with false. cbv iota.
  rewrite Hne. destruct (Z.ltb_spec (df_len df) 10); [lia | reflexivity].
Qed.

Lemma fetch_loop_first_full (get : Z -> Reply) :
  stops (get 1) = false ->
  df_empty (fst (fetch_loop get)) = false /\ 10 <= df_len (fst (fetch_loop get)).
Proof.
  intros Hs. unfold fetch_loop, loop_fuel.
  destruct (fetch_pages_step get 10 1 empty_frame []) as (df & Hfull & Hlen & ->);
    [unfold max_pages; lia | assumption |].
  destruct (fetch_pages_spec get 10 (1 + 1) (concat empty_frame df) ([] ++ [1]))
    as (data & more & -> & _ & _ & ->); [lia | unfold max_pages; lia |].
  cbn [fst].
  destruct (stops_full_page _ Hs) as (df' & _ & Hfull' & Hne & _).
  rewrite Hfull in Hfull'. injection Hfull' as <-.
  apply df_empty_false in Hne as [Hc Hl].
  destruct (fold_concat_grows (omap (fun p => full_page (get p)) more) (concat empty_frame df))
    as [Hcols Hlen'].
  { now rewrite columns_concat_empty. }
  rewrite df_len_concat in Hlen'. change (df_len empty_frame) with 0 in Hlen'.
  split; [|lia]. apply df_empty_false. split; [assumption | lia].
Qed.

(** X6: the table the loop brings back is empty exactly when the first
    page stops the loop, and a table that is not empty has at least ten
    rows. *)
Theorem table_empty_iff_first_page_stops (get : Z -> Reply) :
  df_empty (fst (fetch_loop get)) = stops (get 1)
  /\ (stops (get 1) = true -> fetch_loop get = (empty_frame, [1]))
  /\ (stops (get 1) = false -> 10 <= df_len (fst (fetch_loop get))).
Proof.
  split; [|split].
  - destruct (stops (get 1)) eqn:Hs.
    + now rewrite (fetch_loop_first_stops _ Hs).
    + now apply fetch_loop_first_full.
  - apply fetch_loop_first_stops.
  - intros Hs. now apply fetch_loop_first_full.
Qed.

(** X7: when the first ten pages are all full the loop asks for the pages
    1 to 10 and for no other, whatever lies behind them, and the table has
    the rows of the ten pages, a hundred at least. *)
Theorem page_cap (get : Z -> Reply) :
  (forall p, 1 <= p <= 10 -> stops (get p) = false) ->
  snd (fetch_loop get) = [1; 2; 3; 4; 5; 6; 7; 8; 9; 10]
  /\ fst (fetch_loop get)
     = fold_left concat
         (omap (fun p => full_page (get p)) [1; 2; 3; 4; 5; 6; 7; 8; 9; 10]) empty_frame
  /\ 100 <= df_len (fst (fetch_loop get)).
Proof.
  intros Hfull. unfold fetch_loop, loop_fuel.
  destruct (fetch_pages_step get 10 1 empty_frame []) as (d1 & F1 & L1 & ->);
    [unfold max_pages; lia | apply Hfull; lia |].
  destruct (fetch_pages_step get 9 (1 + 1) (concat empty_frame d1) ([] ++ [1]))
    as (d2 & F2 & L2 & ->); [unfold max_pages; lia | apply Hfull; lia |].
  destruct (fetch_pages_step get 8 (1 + 1 + 1) (concat (concat empty_frame d1) d2)
              (([] ++ [1]) ++ [1 + 1]))
    as (d3 & F3 & L3 & ->); [unfold max_pages; lia | apply Hfull; lia |].
  match goal with |- context [fetch_pages 8 get ?p ?a ?l] =>
    destruct (fetch_pages_step get 7 p a l) as (d4 & F4 & L4 & ->);
      [unfold max_pages; lia | apply Hfull; lia |] end.
  match goal with |- context [fetch_pages 7 get ?p ?a ?l] =>
    destruct (fetch_pages_step get 6 p a l) as (d5 & F5 & L5 & ->);
      [unfold max_pages; lia | apply Hfull; lia |] end.
  match goal with |- context [fetch_pages 6 get ?p ?a ?l] =>
    destruct (fetch_pages_step get 5 p a l) as (d6 & F6 & L6 & ->);
      [unfold max_pages; lia | apply Hfull; lia |] end.
  match goal with |- context [fetch_pages 5 get ?p ?a ?l] =>
    destruct (fetch_pages_step get 4 p a l) as (d7 & F7 & L7 & ->);
      [unfold max_pages; lia | apply Hfull; lia |] end.
  match goal with |- context [fetch_pages 4 get ?p ?a ?l] =>
    destruct (fetch_pages_step get 3 p a l) as (d8 & F8 & L8 & ->);
      [unfold max_pages; lia | apply Hfull; lia |] end.
  match goal with |- context [fetch_pages 3 get ?p ?a ?l] =>
    destruct (fetch_pages_step get 2 p a l) as (d9 & F9 & L9 & ->);
      [unfold max_pages; lia | apply Hfull; lia |] end.
  match goal with |- context [fetch_pages 2 get ?p ?a ?l] =>
    destruct (fetch_pages_step get 1 p a l) as (d10 & F10 & L10 & ->);
      [unfold max_pages; lia | apply Hfull; lia |] end.
  cbn [fetch_pages]. change (1 + 1 + 1 + 1 + 1 + 1 + 1 + 1 + 1 + 1 + 1 <=? max_pages) with false.
  cbv iota. cbn [fst snd].
  change (1 + 1) with 2 in *. change (2 + 1) with 3 in *. change (3 + 1) with 4 in *.
  change (4 + 1) with 5 in *. change (5 + 1) with 6 in *. change (6 + 1) with 7 in *.
  change (7 + 1) with 8 in *. change (8 + 1) with 9 in *. change (9 + 1) with 10 in *.
  split; [reflexivity|]. split.
  - cbn [omap list_omap]. rewrite F1, F2, F3, F4, F5, F6, F7, F8, F9, F10. reflexivity.
  - rewrite !df_len_concat. change (df_len empty_frame) with 0. lia.
Qed.

Lemma page_cap_witness :
  requested (fetch_nhtsa_data (Demo.endless 0) 2020 ∅) = [1; 2; 3; 4; 5; 6; 7; 8; 9; 10].
Proof.
  assert (E : get_cached_data (now_lookup (Demo.endless 0)) 2020 ∅ = (None, ∅)) by reflexivity.
  destruct (fetch_on_miss (Demo.endless 0) 2020 ∅ ∅ E) as (_ & -> & _).
  apply (page_cap (nhtsa (Demo.endless 0) 2020)).
  intros p Hp. reflexivity.
Defined.

(** ** When the service has nothing *)

(** X14: when the year is not served from the cache and the first page
    stops the loop (the service is down, answers with another status than
    200, or has fewer than ten rows), the three handlers answer with their
    JSON message that names the year, and the year is left without an
    entry. *)
Theorem no_data_answers (L : Library) (w : World) (year : Z) (mc : Cache) :
  fst (get_cached_data (now_lookup w) year mc) = None ->
  stops (nhtsa w year 1) = true ->
  (forall sort, fst (get_manufacturers L w year sort mc) = Returned (no_data_found year))
  /\ (forall manufacturers, manufacturers <> [] ->
        fst (get_versions L w year manufacturers mc) = Returned (no_data_available year))
  /\ (forall method manufacturer version,
        truthy (Some manufacturer) = true -> truthy (Some version) = true ->
        fst (get_pdf L w method year (Some manufacturer) (Some version) mc)
        = Returned (no_data_available year))
  /\ cache_after (fetch_nhtsa_data w year mc) !! year = None.
Proof.
  intros Hmiss Hs.
  destruct (get_cached_data (now_lookup w) year mc) as [o mc'] eqn:E.
  simpl in Hmiss. subst o.
  destruct (fetch_on_miss _ _ _ _ E) as (Et & _ & Ec).
  rewrite (fetch_loop_first_stops _ Hs) in Et, Ec. simpl in Et, Ec.
  split; [|split; [|split]].
  - intros sort. unfold get_manufacturers. cbv zeta. now rewrite Et.
  - intros [|m ms] Hne; [contradiction|]. unfold get_versions. cbv zeta. now rewrite Et.
  - intros method [|c1 m1] [|c2 v2] Hm Hv; try discriminate.
    unfold get_pdf. cbv zeta. now rewrite Et.
  - rewrite Ec. unfold get_cached_data in E. destruct (mc !! year) as [[t d]|] eqn:Hy.
    + destruct (now_lookup w - t <? CACHE_DURATION); [discriminate|].
      injection E as <-. apply lookup_delete_eq.
    + now injection E as <-.
Qed.

Lemma no_data_answers_witness :
  fst (get_manufacturers Mdy.library (Demo.down 0) 2020 None ∅) = Returned (no_data_found 2020)
  /\ fst (get_versions Mdy.library (Demo.down 0) 2020 [lit "ACME"] ∅)
     = Returned (no_data_available 2020).
Proof.
  destruct (no_data_answers Mdy.library (Demo.down 0) 2020 ∅) as (H1 & H2 & _);
    [reflexivity | reflexivity |].
  split; [apply H1 | apply H2; discriminate].
Defined.

(** ** More on [clean_filename] *)

Lemma between_spec (lo hi c : N) : between lo hi c = true <-> (lo <= c <= hi)%N.
Proof. unfold between. rewrite andb_true_iff, !N.leb_le. reflexivity. Qed.

Lemma is_ascii_alnum_spec (c : char) :
  is_ascii_alnum c = true <-> (97 <= c <= 122 \/ 65 <= c <= 90 \/ 48 <= c <= 57)%N.
Proof.
  unfold is_ascii_alnum, is_lower_az, is_upper_az, is_digit09.
  rewrite !orb_true_iff, !between_spec. tauto.
Qed.

Lemma is_space_spec (c : char) :
  is_space c = true <->
  (9 <= c <= 13 \/ 28 <= c <= 32 \/ c = 133 \/ c = 160 \/ c = 5760 \/ 8192 <= c <= 8202
   \/ c = 8232 \/ c = 8233 \/ c = 8239 \/ c = 8287 \/ c = 12288)%N.
Proof.
  unfold is_space. rewrite !orb_true_iff, !between_spec, !N.eqb_eq. tauto.
Qed.

Lemma clean_filename_cons (c : char) (text : str) :
  clean_filename (c :: text)
  = if filename_junk c then clean_filename text
    else (if N.eqb c SPACE then UNDERSCORE else c) :: clean_filename text.
Proof.
  unfold clean_filename, re_sub_delete, replace_char. cbn [List.filter].
  now destruct (filename_junk c).
Qed.

(** The characters [clean_filename] keeps: none is an underscore, a dot, a
    slash or a backslash. *)
Lemma kept_not_special (c : char) :
  filename_junk c = false ->
  N.eqb c UNDERSCORE = false /\ N.eqb c DOT = false /\ N.eqb c SLASH = false
  /\ N.eqb c BACKSLASH = false.
Proof.
  unfold filename_junk. rewrite negb_false_iff, !orb_true_iff.
  rewrite is_ascii_alnum_spec, is_space_spec, N.eqb_eq.
  unfold HYPHEN, UNDERSCORE, DOT, SLASH, BACKSLASH.
  intros H. repeat split; apply N.eqb_neq; lia.
Qed.

Lemma plain_is_kept (c : char) :
  (is_ascii_alnum c || N.eqb c HYPHEN)%bool = true ->
  filename_junk c = false /\ N.eqb c SPACE = false.
Proof.
  intros H. split.
  - unfold filename_junk. apply negb_false_iff.
    apply orb_prop in H as [H|H]; rewrite H; [reflexivity | apply orb_true_r].
  - revert H. rewrite orb_true_iff, is_ascii_alnum_spec, N.eqb_eq. unfold HYPHEN, SPACE.
    intros H. apply N.eqb_neq. lia.
Qed.

(** X8: a name made of ASCII letters, digits and hyphens is returned as it
    is. *)
Theorem clean_filename_fixes_plain_names (text : str) :
  forallb (fun c => (is_ascii_alnum c || N.eqb c HYPHEN)%bool) text = true ->
  clean_filename text = text.
Proof.
  induction text as [|c text IH]; [reflexivity|].
  cbn [forallb]. intros H. apply andb_prop in H as [Hc Ht].
  rewrite clean_filename_cons, (IH Ht).
  destruct (plain_is_kept c Hc) as [-> ->]. reflexivity.
Qed.

Lemma clean_filename_fixes_plain_names_witness :
  clean_filename (lit "Model-3") = lit "Model-3".
Proof. apply (clean_filename_fixes_plain_names (lit "Model-3")). reflexivity. Defined.

(** X9: the underscores of the argument are deleted, and so cleaning is
    not a projection: cleaning a cleaned name deletes the underscores that
    stood for its spaces and changes nothing else. *)
Theorem clean_filename_twice (text : str) :
  clean_filename (clean_filename text)
  = List.filter (fun c => negb (N.eqb c UNDERSCORE)) (clean_filename text).
Proof.
  induction text as [|c text IH]; [reflexivity|].
  rewrite clean_filename_cons.
  destruct (filename_junk c) eqn:Hjunk; [exact IH|].
  destruct (N.eqb_spec c SPACE) as [->|Hne].
  - rewrite clean_filename_cons.
    change (filename_junk UNDERSCORE) with true. cbv iota.
    cbn [List.filter]. change (N.eqb UNDERSCORE UNDERSCORE) with true.
    cbn [negb]. exact IH.
  - rewrite clean_filename_cons, Hjunk.
    apply N.eqb_neq in Hne. rewrite Hne. cbn [List.filter].
    destruct (kept_not_special c Hjunk) as (-> & _).
    cbn [negb]. now rewrite IH.
Qed.

(** X10: the result is no longer than the argument, and it has as many
    underscores as the argument has spaces. *)
Theorem clean_filename_counts (text : str) :
  (length (clean_filename text) <= length text)%nat
  /\ count_char UNDERSCORE (clean_filename text) = count_char SPACE text.
Proof.
  induction text as [|c text [IHl IHc]]; [split; reflexivity|].
  rewrite clean_filename_cons. unfold count_char in *. cbn [List.filter length].
  destruct (filename_junk c) eqn:Hjunk.
  - split; [lia|]. rewrite IHc.
    destruct (N.eqb_spec SPACE c) as [<-|]; [|reflexivity].
    change (filename_junk SPACE) with false in Hjunk. discriminate Hjunk.
  - destruct (N.eqb_spec c SPACE) as [->|Hne].
    + cbn [List.filter length]. change (N.eqb UNDERSCORE UNDERSCORE) with true.
      change (N.eqb SPACE SPACE) with true. cbv iota. cbn [length]. split; [lia | now rewrite IHc].
    + cbn [List.filter length].
      destruct (kept_not_special c Hjunk) as (Hu & _).
      rewrite N.eqb_sym in Hu. rewrite Hu.
      destruct (N.eqb_spec SPACE c) as [<-|_]; [contradiction|].
      split; [lia | exact IHc].
Qed.

(** ** More on [get_pdf] *)

Lemma uint_digits (d : Decimal.uint) :
  forallb is_digit09 (lit (NilEmpty.string_of_uint d)) = true.
Proof. induction d; [reflexivity | exact IHd ..]. Qed.

Lemma str_of_Z_digits (n : Z) :
  forallb (fun c => (is_digit09 c || N.eqb c HYPHEN)%bool) (str_of_Z n) = true.
Proof.
  assert (Hu : forall d, forallb (fun c => (is_digit09 c || N.eqb c HYPHEN)%bool)
                           (lit (NilZero.string_of_uint d)) = true).
  { intros d. apply forallb_forall. intros c Hc.
    assert (Hd : is_digit09 c = true); [|now rewrite Hd].
    assert (Hall : forallb is_digit09 (lit (NilZero.string_of_uint d)) = true).
    { destruct d; [reflexivity | apply (uint_digits (_ _)) ..]. }
    rewrite forallb_forall in Hall. now apply Hall. }
  unfold str_of_Z. destruct (Z.to_int n) as [d|d]; [apply Hu|].
  change (lit (NilZero.string_of_int (Decimal.Neg d)))
    with (HYPHEN :: lit (NilZero.string_of_uint d)).
  cbn [forallb]. rewrite Hu. reflexivity.
Qed.

(** A character that can stand in a path: no separator and no space. *)
Lemma digit_or_hyphen_in_path (c : char) :
  (is_digit09 c || N.eqb c HYPHEN)%bool = true ->
  N.eqb c SLASH = false /\ N.eqb c BACKSLASH = false /\ N.eqb c SPACE = false.
Proof.
  unfold is_digit09. rewrite orb_true_iff, between_spec, N.eqb_eq.
  unfold HYPHEN, SLASH, BACKSLASH, SPACE. intros H. repeat split; apply N.eqb_neq; lia.
Qed.

Lemma clean_filename_in_path (text : str) (c : char) :
  In c (clean_filename text) ->
  N.eqb c SLASH = false /\ N.eqb c BACKSLASH = false /\ N.eqb c SPACE = false.
Proof.
  induction text as [|d text IH]; [intros []|].
  rewrite clean_filename_cons. destruct (filename_junk d) eqn:Hjunk; [exact IH|].
  intros [<-|Hc]; [|now apply IH].
  destruct (N.eqb_spec d SPACE) as [->|Hne]; [repeat split; reflexivity|].
  destruct (kept_not_special d Hjunk) as (_ & _ & -> & ->).
  apply N.eqb_neq in Hne. now rewrite Hne.
Qed.

Lemma pdf_name_in_path (year : Z) (m v : str) (c : char) :
  In c (pdf_name year m v) ->
  N.eqb c SLASH = false /\ N.eqb c BACKSLASH = false /\ N.eqb c SPACE = false.
Proof.
  unfold pdf_name. rewrite !in_app_iff.
  intros [H|[H|[H|[H|[H|H]]]]].
  - apply digit_or_hyphen_in_path.
    pose proof (str_of_Z_digits year) as Hd. rewrite forallb_forall in Hd. now apply Hd.
  - destruct H as [<-|[]]. repeat split; reflexivity.
  - now apply clean_filename_in_path in H.
  - destruct H as [<-|[]]. repeat split; reflexivity.
  - now apply clean_filename_in_path in H.
  - destruct H as [<-|[<-|[<-|[<-|[]]]]]; repeat split; reflexivity.
Qed.

(** What a file answered by [get_pdf] is made of. *)
Lemma get_pdf_file (L : Library) (w : World) (method : Method) (year : Z)
    (manufacturer version : option str) (mc : Cache)
    (status : Z) (mimetype : string) (attachment : bool) (download_name : str) (content : list N) :
  fst (get_pdf L w method year manufacturer version mc)
  = Returned (FileResponse status mimetype attachment download_name content) ->
  exists m v first rest bytes,
    manufacturer = Some m /\ version = Some v
    /\ lookup_version L m v (table (fetch_nhtsa_data w year mc)) = inr (first :: rest)
    /\ pdf_host w (url first) = PdfHttp 200 bytes
    /\ send_file_lib L method bytes (is_post method) (pdf_name year m v) = SendOk status content
    /\ mimetype = "application/pdf"%string
    /\ attachment = is_post method /\ download_name = pdf_name year m v.
Proof.
  unfold get_pdf.
  destruct manufacturer as [[|c1 m1]|]; try discriminate.
  destruct version as [[|c2 v2]|]; try discriminate.
  cbv zeta. cbn [fst].
  destruct (df_empty _); [discriminate|].
  destruct (negb (has_column "manufacturername" _)); [discriminate|].
  destruct (negb (has_column "name" _)); [discriminate|].
  destruct (lookup_version L (c1 :: m1) (c2 :: v2) _) as [e|[|first rest]] eqn:El;
    [discriminate | discriminate |].
  destruct (negb (has_column "url" _)); [discriminate|].
  destruct (pdf_host w (url first)) as [msg|s bytes] eqn:Eh; [discriminate|].
  destruct (Z.eqb_spec s 200) as [->|]; [|discriminate].
  fold (is_post method). fold (pdf_name year (c1 :: m1) (c2 :: v2)).
  destruct (send_file_lib L method bytes (is_post method) (pdf_name year (c1 :: m1) (c2 :: v2)))
    as [msg|st body] eqn:Es; [discriminate|].
  intros H. exists (c1 :: m1), (c2 :: v2), first, rest, bytes.
  injection H as <- <- <- <- <-. repeat split; assumption.
Qed.

Lemma lookup_version_In (L : Library) (m v : str) (data : DataFrame) (selection : list Row)
    (r : Row) :
  lookup_version L m v data = inr selection ->
  In r selection ->
  In r (rows data)
  /\ exists a b, manufacturername r = Some a /\ name r = Some b
                 /\ lower L a = lower L m /\ lower L b = lower L v.
Proof.
  unfold lookup_version.
  destruct (exact_match L m v data) as [|r0 rest] eqn:E.
  - unfold insensitive_match, lower_cell.
    destruct (negb (column_is_text L (map manufacturername (rows data)))); [discriminate|].
    destruct (negb (column_is_text L (map name (rows data)))); [discriminate|].
    intros [= <-] H.
    apply filter_In in H as [Hr H]. apply andb_prop in H as [Ha Hb].
    apply cell_is_eq in Ha, Hb. split; [assumption|].
    destruct (manufacturername r) as [a|]; [|discriminate].
    destruct (name r) as [b|]; [|discriminate].
    exists a, b. cbn in Ha, Hb. repeat split; congruence.
  - intros [= <-]. rewrite <- E. unfold exact_match.
    destruct (column_is_text L (map manufacturername (rows data))
              && column_is_text L (map name (rows data)))%bool; [|intros []].
    intros H. apply filter_In in H as [Hr H]. apply andb_prop in H as [Ha Hb].
    apply cell_is_eq in Ha, Hb. split; [assumption|]. now exists m, v.
Qed.

(** X11: [get_pdf] answers with a file only when the host of the PDF
    answered 200 to the address of a row of the table whose manufacturer
    and document name agree with the request up to case; the file is what
    [send_file] makes of the bytes the host sent, under the name the
    handler computed and typed [application/pdf]. *)
Theorem pdf_only_from_matching_row (L : Library) (w : World) (method : Method) (year : Z)
    (manufacturer version : option str) (mc : Cache)
    (status : Z) (mimetype : string) (attachment : bool) (download_name : str) (content : list N) :
  fst (get_pdf L w method year manufacturer version mc)
  = Returned (FileResponse status mimetype attachment download_name content) ->
  mimetype = "application/pdf"%string
  /\ exists m v r a b bytes,
       manufacturer = Some m /\ version = Some v
       /\ In r (rows (table (fetch_nhtsa_data w year mc)))
       /\ manufacturername r = Some a /\ name r = Some b
       /\ lower L a = lower L m /\ lower L b = lower L v
       /\ pdf_host w (url r) = PdfHttp 200 bytes
       /\ send_file_lib L method bytes attachment download_name = SendOk status content.
Proof.
  intros H.
  apply get_pdf_file in H as (m & v & first & rest & bytes & -> & -> & El & Eh & Es & -> & -> & ->).
  split; [reflexivity|].
  destruct (lookup_version_In L m v (table (fetch_nhtsa_data w year mc)) (first :: rest) first El)
    as (Hr & a & b & Ha & Hb & Hla & Hlb); [now left|].
  exists m, v, first, a, b, bytes. repeat split; assumption.
Qed.

Lemma pdf_only_from_matching_row_witness :
  "application/pdf"%string = "application/pdf"%string
  /\ exists m v r a b bytes,
       Some (lit "acme") = Some m /\ Some (lit "org2") = Some v
       /\ In r (rows (table (fetch_nhtsa_data (Demo.serving_pdf Sample.letters 0) 2020 ∅)))
       /\ manufacturername r = Some a /\ name r = Some b
       /\ Mdy.lower a = Mdy.lower m /\ Mdy.lower b = Mdy.lower v
       /\ pdf_host (Demo.serving_pdf Sample.letters 0) (url r) = PdfHttp 200 bytes
       /\ Mdy.send_file_lib GET bytes false (lit "2020_acme_org2.pdf") = SendOk 200 Demo.pdf_bytes.
Proof.
  apply (pdf_only_from_matching_row Mdy.library (Demo.serving_pdf Sample.letters 0) GET 2020
           (Some (lit "acme")) (Some (lit "org2")) ∅ 200 "application/pdf" false
           (lit "2020_acme_org2.pdf") Demo.pdf_bytes).
  vm_compute. reflexivity.
Defined.

(** X24: on a table whose columns of manufacturer names and of document
    names are there and hold text, and no field that reads as a number,
    the rows [get_pdf] goes on with are the rows that equal the request
    when there is one, and otherwise the rows that agree with it after
    case mapping; when there is none either the answer is the JSON error
    that quotes the version and the manufacturer; otherwise the address of
    the first selected row is asked for the PDF, and on status 200 the
    answer is what [send_file] makes of the bytes, or the JSON error with
    its message when it raises. *)
Theorem pdf_lookup_on_text_columns (L : Library) (w : World) (method : Method) (year : Z)
    (manufacturer version : str) (mc : Cache) (data : DataFrame) :
  table (fetch_nhtsa_data w year mc) = data ->
  truthy (Some manufacturer) = true ->
  truthy (Some version) = true ->
  df_empty data = false ->
  has_column "manufacturername" data = true ->
  has_column "name" data = true ->
  column_is_text L (map manufacturername (rows data)) = true ->
  column_is_text L (map name (rows data)) = true ->
  plain_text L (map manufacturername (rows data)) = true ->
  plain_text L (map name (rows data)) = true ->
  (forall r, In r (exact_match L manufacturer version data) <->
             In r (rows data) /\ manufacturername r = Some manufacturer /\ name r = Some version)
  /\ exists insensitive,
       insensitive_match L manufacturer version data = inr insensitive
       /\ (forall r, In r insensitive <->
                     In r (rows data)
                     /\ exists m v, manufacturername r = Some m /\ name r = Some v
                                    /\ lower L m = lower L manufacturer
                                    /\ lower L v = lower L version)
       /\ (exact_match L manufacturer version data <> [] ->
             lookup_version L manufacturer version data
             = inr (exact_match L manufacturer version data))
       /\ (exact_match L manufacturer version data = [] ->
             lookup_version L manufacturer version data = inr insensitive)
       /\ (exact_match L manufacturer version data = [] -> insensitive = [] ->
             fst (get_pdf L w method year (Some manufacturer) (Some version) mc)
             = Returned (jsonify (JObj [("error"%string,
                                         JStr (not_found_message manufacturer version))])))
       /\ (forall first rest bytes,
             lookup_version L manufacturer version data = inr (first :: rest) ->
             has_column "url" data = true ->
             pdf_host w (url first) = PdfHttp 200 bytes ->
             fst (get_pdf L w method year (Some manufacturer) (Some version) mc)
             = match send_file_lib L method bytes (is_post method)
                       (pdf_name year manufacturer version) with
               | SendOk status body =>
                   Returned (FileResponse status "application/pdf" (is_post method)
                               (pdf_name year manufacturer version) body)
               | SendError message =>
                   Returned (jsonify (JObj [("error"%string,
                                             JStr (lit "Error accessing PDF: " ++ message))]))
               end).
Proof.
  intros Hdata Hman Hver Hempty Hm Hn Htm Htn _ _.
  assert (Hrun : fst (get_pdf L w method year (Some manufacturer) (Some version) mc)
                 = match lookup_version L manufacturer version data with
                   | inl e => Raised e
                   | inr [] => Returned (jsonify (JObj [("error"%string,
                                           JStr (not_found_message manufacturer version))]))
                   | inr (first :: _) =>
                       if negb (has_column "url" data) then
                         Returned (jsonify (JObj [("error"%string,
                                                   JStr (lit "PDF URL not available in data"))]))
                       else
                         match pdf_host w (url first) with
                         | PdfHttp status_code content =>
                             if status_code =? 200 then
                               match send_file_lib L method content (is_post method)
                                       (pdf_name year manufacturer version) with
                               | SendOk status body =>
                                   Returned (FileResponse status "application/pdf" (is_post method)
                                               (pdf_name year manufacturer version) body)
                               | SendError message =>
                                   Returned (jsonify (JObj [("error"%string,
                                       JStr (lit "Error accessing PDF: " ++ message))]))
                               end
                             else
                               Returned (jsonify (JObj [("error"%string,
                                   JStr (lit "Could not fetch PDF. Status code: "
                                         ++ str_of_Z status_code))]))
                         | PdfError message =>
                             Returned (jsonify (JObj [("error"%string,
                                                       JStr (lit "Error accessing PDF: " ++ message))]))
                         end
                   end).
  { unfold get_pdf.
    destruct manufacturer as [|c1 m1]; [discriminate|].
    destruct version as [|c2 v2]; [discriminate|].
    cbv zeta. rewrite Hdata, Hempty, Hm, Hn. cbn [negb fst]. reflexivity. }
  assert (Hexact : exact_match L manufacturer version data
                   = List.filter (fun r => (cell_is manufacturer (manufacturername r)
                                            && cell_is version (name r))%bool) (rows data)).
  { unfold exact_match. now rewrite Htm, Htn. }
  split.
  - intros r. rewrite Hexact, filter_In, andb_true_iff, !cell_is_eq. reflexivity.
  - eexists. split; [unfold insensitive_match; rewrite Htm, Htn; reflexivity|].
    split; [|split; [|split; [|split]]].
    + intros r. unfold lower_cell.
      rewrite filter_In, andb_true_iff, !cell_is_eq. split.
      * intros [Hr [Ha Hb]]. split; [assumption|].
        destruct (manufacturername r) as [m|]; [|discriminate].
        destruct (name r) as [v|]; [|discriminate].
        exists m, v. cbn in Ha, Hb. repeat split; congruence.
      * intros [Hr (m & v & -> & -> & Ea & Eb)]. cbn. repeat split; congruence.
    + unfold lookup_version. now destruct (exact_match L manufacturer version data).
    + unfold lookup_version, insensitive_match. intros ->. now rewrite Htm, Htn.
    + intros He Hi. rewrite Hrun. unfold lookup_version, insensitive_match.
      now rewrite He, Htm, Htn, Hi.
    + intros first rest bytes Hl Hu Hp. rewrite Hrun, Hl, Hu, Hp. reflexivity.
Qed.

Lemma pdf_lookup_on_text_columns_witness :
  fst (get_pdf Mdy.library (Sample.serving Sample.letters 0) GET 2020
         (Some (lit "acme")) (Some (lit "org77")) ∅)
  = Returned (jsonify (JObj [("error"%string, JStr (not_found_message (lit "acme") (lit "org77")))])).
Proof.
  destruct (pdf_lookup_on_text_columns Mdy.library (Sample.serving Sample.letters 0) GET 2020
              (lit "acme") (lit "org77") ∅ Sample.letters)
    as (_ & insensitive & Hi & _ & _ & _ & Hnone & _);
    first [apply Hnone; [reflexivity | vm_compute in Hi; now injection Hi as <-] | reflexivity].
Defined.

(** X12: the name under which a file is sent has no slash, no backslash
    and no space, whatever the manufacturer and the version of the request. *)
Theorem download_name_in_path (L : Library) (w : World) (method : Method) (year : Z)
    (manufacturer version : option str) (mc : Cache)
    (status : Z) (mimetype : string) (attachment : bool) (download_name : str) (content : list N) :
  fst (get_pdf L w method year manufacturer version mc)
  = Returned (FileResponse status mimetype attachment download_name content) ->
  ~ In SLASH download_name /\ ~ In BACKSLASH download_name /\ ~ In SPACE download_name.
Proof.
  intros H. apply get_pdf_file in H as (m & v & _ & _ & _ & _ & _ & _ & _ & _ & _ & _ & ->).
  repeat split; intros Hin; apply pdf_name_in_path in Hin as (H1 & H2 & H3); discriminate.
Qed.

Lemma download_name_in_path_witness :
  ~ In SLASH (lit "2020_acme_org2.pdf") /\ ~ In BACKSLASH (lit "2020_acme_org2.pdf")
  /\ ~ In SPACE (lit "2020_acme_org2.pdf").
Proof.
  apply (download_name_in_path Mdy.library (Demo.serving_pdf Sample.letters 0) GET 2020
           (Some (lit "acme")) (Some (lit "org2")) ∅ 200 "application/pdf" false
           (lit "2020_acme_org2.pdf") Demo.pdf_bytes).
  vm_compute. reflexivity.
Defined.

(** ** More on [get_versions] *)





(** ** More on [get_manufacturers] *)

Lemma group_keys (data : DataFrame) :
  map fst (group_max_letterdate data)
  = sort_by str_leb (unique_by str_eqb (texts (map manufacturername (rows data)))).
Proof. unfold group_max_letterdate. rewrite map_map. cbn [fst]. apply map_id. Qed.

Lemma dated_names (L : Library) (data : DataFrame) :
  map fst (dated L data)
  = sort_by str_leb (unique_by str_eqb (texts (map manufacturername (rows data)))).
Proof.
  unfold dated. rewrite map_map. cbn [fst]. apply group_keys.
Qed.

Lemma dated_date (L : Library) (data : DataFrame) (s : str) (d : option Z) :
  In (s, d) (dated L data) -> d = parse_cell L (greatest_letterdate data s).
Proof.
  unfold dated, group_max_letterdate. rewrite map_map. intros H.
  apply in_map_iff in H as (k & E & _). cbn [fst snd] in E. now injection E as <- <-.
Qed.

(** X16: sorted by date, on a table whose manufacturer names and letter
    dates are text, when the [max] of a group skips the missing dates or no
    manufacturer has both a dated and an undated letter, the list has every
    manufacturer name of the table once, the blank ones included, and no
    other; the date of each is what the greatest of its letter dates,
    compared as strings, parses to. *)
Theorem manufacturers_by_date_lists_each_once (L : Library) (w : World) (year : Z)
    (sort : option str) (mc : Cache) (data : DataFrame) :
  table (fetch_nhtsa_data w year mc) = data ->
  df_empty data = false ->
  has_column "manufacturername" data = true ->
  has_column "letterdate" data = true ->
  str_eqb (default (lit "date") sort) (lit "date") = true ->
  plain_text L (map manufacturername (rows data)) = true ->
  plain_text L (map letterdate (rows data)) = true ->
  (max_skips_missing L || negb (mixes_missing data))%bool = true ->
  exists entries,
    fst (get_manufacturers L w year sort mc)
    = Returned (jsonify (JObj [("manufacturers"%string, JList (map (manufacturer_json L) entries));
                               ("sorted_by"%string, JStr (lit "date"))]))
    /\ NoDup (map fst entries)
    /\ (forall s, In s (map fst entries) <->
                  exists r, In r (rows data) /\ manufacturername r = Some s)
    /\ (forall s d, In (s, d) entries -> d = parse_cell L (greatest_letterdate data s)).
Proof.
  intros Hdata Hempty Hm Hl Hsort _ _ Hmax.
  assert (Hgo : (negb (max_skips_missing L) && mixes_missing data)%bool = false).
  { destruct (max_skips_missing L), (mixes_missing data); try reflexivity; discriminate Hmax. }
  set (entries := sort_by (fun a b => date_desc_le (snd a) (snd b)) (dated L data)).
  assert (Hperm : Permutation (dated L data) entries) by apply sort_by_perm.
  assert (Hnames : Permutation (unique_by str_eqb (texts (map manufacturername (rows data))))
                               (map fst entries)).
  { rewrite <- (Permutation_map fst Hperm), dated_names. apply sort_by_perm. }
  exists entries. split; [|split; [|split]].
  - unfold get_manufacturers. cbv zeta. rewrite Hdata, Hempty, Hm, Hl, Hsort, Hgo. reflexivity.
  - eapply NoDup_Permutation_proper; [symmetry; exact Hnames|].
    rewrite <- (map_id (unique_by str_eqb _)). apply unique_by_distinct.
    intros a b ->. now apply str_eqb_eq.
  - intros s. split.
    + intros H. apply (Permutation_in _ (Permutation_sym Hnames)) in H.
      apply unique_by_In, texts_In, in_map_iff in H as (r & E & Hr). now exists r.
    + intros (r & Hr & E). apply (Permutation_in _ Hnames).
      destruct (unique_by_covers str_eqb (texts (map manufacturername (rows data))))
        with (x := s) as (y & Hy & Hsame).
      * intros a. now apply str_eqb_eq.
      * intros a b c. rewrite !str_eqb_eq. congruence.
      * intros a b. rewrite !str_eqb_eq. congruence.
      * apply texts_In, in_map_iff. now exists r.
      * apply str_eqb_eq in Hsame. now subst y.
  - intros s d H. apply (dated_date L). now apply (Permutation_in _ (Permutation_sym Hperm)).
Qed.

Lemma manufacturers_by_date_lists_each_once_witness :
  exists entries,
    fst (get_manufacturers Mdy.library (Sample.serving Sample.letters 0) 2020 None ∅)
    = Returned (jsonify (JObj [("manufacturers"%string,
                                JList (map (manufacturer_json Mdy.library) entries));
                               ("sorted_by"%string, JStr (lit "date"))]))
    /\ NoDup (map fst entries).
Proof.
  destruct (manufacturers_by_date_lists_each_once Mdy.library (Sample.serving Sample.letters 0)
              2020 None ∅ Sample.letters)
    as (entries & H1 & H2 & _); try reflexivity.
  exists entries. now split.
Defined.

(** ** Witnesses *)

Lemma manufacturers_by_date_sorted_witness :
  exists entries,
    Permutation (dated Mdy.library Sample.letters) entries
    /\ StronglySorted (fun a b => date_desc_le (snd a) (snd b) = true) entries.
Proof.
  destruct (manufacturers_by_date_sorted Mdy.library (Sample.serving Sample.letters 0)
              2020 None ∅ Sample.letters)
    as (entries & _ & H2 & H3); try reflexivity.
  exists entries. now split.
Defined.

Lemma manufacturers_by_name_sorted_witness :
  exists names,
    fst (get_manufacturers Mdy.library (Sample.serving Sample.letters 0) 2020
           (Some (lit "name")) ∅)
    = Returned (jsonify (JObj [("manufacturers"%string, JList (map json_cell (map Some names)));
                               ("sorted_by"%string, JStr (lit "name"))]))
    /\ StronglySorted str_lt names.
Proof.
  destruct (manufacturers_by_name_sorted Mdy.library (Sample.serving Sample.letters 0)
              2020 (Some (lit "name")) ∅ Sample.letters)
    as (names & H1 & H2 & _); try reflexivity.
  exists names. now split.
Defined.

(** ** Answers while the table is cached *)

(** X23: once a request has fetched a table for a year, the requests for
    that year in the 30 minutes after the storing are answered from that
    table: they get what the first request would have got, whatever the
    service has become, and leave the cache as it is.  For [get_pdf] the
    host of the PDF is asked again and is taken to answer the same. *)
Theorem answers_stable_while_cached (L : Library) (w w' : World) (year : Z) (mc : Cache) :
  fst (get_cached_data (now_lookup w) year mc) = None ->
  df_empty (table (fetch_nhtsa_data w year mc)) = false ->
  now_lookup w' - now_store w < CACHE_DURATION ->
  (forall sort,
     get_manufacturers L w' year sort (cache_after (fetch_nhtsa_data w year mc))
     = (fst (get_manufacturers L w year sort mc), cache_after (fetch_nhtsa_data w year mc)))
  /\ (forall manufacturers,
        get_versions L w' year manufacturers (cache_after (fetch_nhtsa_data w year mc))
        = (fst (get_versions L w year manufacturers mc),
           cache_after (fetch_nhtsa_data w year mc)))
  /\ (forall method manufacturer version,
        pdf_host w' = pdf_host w ->
        get_pdf L w' method year manufacturer version (cache_after (fetch_nhtsa_data w year mc))
        = (fst (get_pdf L w method year manufacturer version mc),
           cache_after (fetch_nhtsa_data w year mc))).
Proof.
  intros Hmiss Hdata Hfresh.
  pose proof (fetch_hit_after_store w w' year mc Hmiss Hdata Hfresh) as Hhit.
  split; [|split].
  - intros sort. unfold get_manufacturers. cbv zeta. rewrite Hhit. reflexivity.
  - intros [|m ms]; [reflexivity|]. unfold get_versions. cbv zeta. rewrite Hhit. reflexivity.
  - intros method manufacturer version Hhost. unfold get_pdf.
    destruct manufacturer as [[|c1 m1]|]; try reflexivity.
    destruct version as [[|c2 v2]|]; try reflexivity.
    cbv zeta. rewrite Hhit, Hhost. reflexivity.
Qed.

Lemma answers_stable_while_cached_witness :
  get_manufacturers Mdy.library (Demo.down 1000) 2020 None
    (cache_after (fetch_nhtsa_data (Sample.serving Sample.letters 0) 2020 ∅))
  = (fst (get_manufacturers Mdy.library (Sample.serving Sample.letters 0) 2020 None ∅),
     cache_after (fetch_nhtsa_data (Sample.serving Sample.letters 0) 2020 ∅)).
Proof.
  destruct (answers_stable_while_cached Mdy.library (Sample.serving Sample.letters 0)
              (Demo.down 1000) 2020 ∅) as (H & _); first [apply H | reflexivity].
Defined.
